(** * The training and evaluation orchestrator of mer-deepcaps

    A shallow embedding of [train] (src/train.py) and the properties of
    its epoch loop: batch merging, metric aggregation, the F1 report, the
    periodic plots, the checkpoint decision and the checkpoint restore.

    Tensors are lists along the batch dimension, so [torch.concat] of two
    tensors is list append.  The model, the optimiser, the loss, the
    helpers and the sinks live outside src/train.py; they are the fields
    of the [Backend] class, and every theorem of the generic part holds
    for all of them.  Python's mutable objects, local variables, files and
    printed lines are one explicit [State]; exceptions (and [sys.exit],
    which raises [SystemExit]) are the [Exc] results of a small
    state-and-exception monad. *)

From Stdlib Require Import List ZArith QArith String Bool Lia.
Import ListNotations.
Open Scope Z_scope.

(** ** External collaborators *)

(** [deepcaps.train()] and [deepcaps.eval()] switch this flag. *)
Inductive Mode := TrainMode | EvalMode.

(** The eight results of [deepcaps(data, optic_data, onehot_label)]; the
    two pose tensors are bound to [_] by the caller and left out. *)
Record Outputs (O I : Type) := mkOutputs {
  outputs : list O;
  reconstructed : list I;
  indices : list Z;
  outputs1 : list O;
  reconstructed1 : list I;
  indices1 : list Z }.
Arguments mkOutputs {O I}.
Arguments outputs {O I}.
Arguments reconstructed {O I}.
Arguments indices {O I}.
Arguments outputs1 {O I}.
Arguments reconstructed1 {O I}.
Arguments indices1 {O I}.

(** Everything [train] imports: torch, model.py, helpers.py.  Scalars are
    Python numbers with the operations [train] applies to them. *)
Class Backend := {
  Scalar : Type;
  Img : Type;
  ClassOut : Type;
  OneHot : Type;
  LossT : Type;
  Params : Type;
  Grads : Type;
  OptState : Type;
  Blob : Type;
  ExtExn : Type;
  (* numbers: the literal 0, [+=], [/] by a non-zero int, [<] *)
  s_zero : Scalar;
  s_add : Scalar -> Scalar -> Scalar;
  s_div : Scalar -> Z -> Scalar;
  s_lt : Scalar -> Scalar -> bool;
  (* helpers.py *)
  onehot_encode : list Z -> Z -> OneHot;
  accuracy_calc : list Z -> list Z -> Scalar;
  get_learning_rate : OptState -> Scalar;
  (* model.py: DeepCapsModel(num_class, img_height, img_width) *)
  init_model : Z -> Z -> Params;
  no_grads : Grads;
  forward : Mode -> Params -> list Img -> list Img -> OneHot
            -> Outputs ClassOut Img;
  loss_fn : Params -> list ClassOut -> list Img -> list Img -> OneHot
            -> Scalar -> Scalar -> Scalar -> LossT;
  (* torch: loss.item(), loss.backward(), Adam, save and load *)
  item : LossT -> Scalar;
  backward : LossT -> Grads -> Grads;
  zero_grad : Grads -> Grads;
  adam_init : Scalar -> OptState;
  opt_step : OptState -> Params -> Grads -> OptState * Params;
  state_dict : Params -> Blob;
  load_state_dict : Blob -> Params -> ExtExn + Params }.

(** ** Exceptions *)

Inductive PyExn :=
| SystemExit (code : option Z)
| ZeroDivisionError
| UnboundLocalError (name : string)
| TypeError.

(** Exit status of the interpreter when the exception is not caught:
    [sys.exit()] without an argument is status 0, an integer argument is
    the status, any other exception is status 1. *)
Definition exit_status (e : PyExn) : Z :=
  match e with
  | SystemExit None => 0
  | SystemExit (Some n) => n
  | _ => 1
  end.

(** The result of a computation that may raise. *)
Inductive Res (A : Type) :=
| Val (a : A)
| Exc (e : PyExn).
Arguments Val {A}.
Arguments Exc {A}.

Section Orchestrator.

Context {B : Backend}.

(** ** Data *)

(** One element of a loader: [(train_data, optic_data, labels)]. *)
Record Batch := mkBatch {
  b_data : list Img;
  b_optic : list Img;
  b_labels : list Z }.

(** The module-level [train_loader] and [test_loader].  A loader is
    iterated afresh in every epoch (and may shuffle), so it is indexed by
    the epoch. *)
Record Loaders := mkLoaders {
  train_loader : nat -> list Batch;
  test_loader : nat -> list Batch }.

(** The keyword arguments of [train] that the body reads ([device],
    [decay_step] and [gamma] do not influence any value). *)
Record Config := mkConfig {
  img_size : Z;
  learning_rate : Scalar;
  num_epochs : Z;
  num_classes : Z;
  lambda_ : Scalar;
  m_plus : Scalar;
  m_minus : Scalar;
  checkpoint_folder : option string;
  checkpoint_name : option string;
  load_checkpoint : bool;
  graphs_folder : option string }.

(** What the run prints, plots and saves, in order. *)
Inductive Event :=
| EvPrintModel (p : Params)
| EvPrintLoaded
| EvPrintExn (e : ExtExn)
| EvPrintBegin (epoch : nat) (lr : Scalar)
| EvPrintTrain (epoch : nat) (acc loss : Scalar)
| EvPrintTest (epoch : nat) (acc loss : Scalar)
| EvPrintF1 (f1_num_classes : Z) (preds target : list Z)
| EvPlotLossAcc (path : string) (epoch : nat)
    (train_accuracies train_losses test_accuracies test_losses : list Scalar)
| EvPlotReconstruction (path : string) (epoch : nat)
    (original_images reconstructed_images : list Img)
    (predicted_classes true_classes : list Z)
| EvSave (path : string) (epoch : nat) (blob : Blob)
| EvPrintSaved (epoch : nat).

(** The [deepcaps] object. *)
Record Model := mkModel {
  mode : Mode;
  params : Params;
  grads : Grads }.

(** The locals [data_con], [recon], [ind], [labels_con]: bound by the
    body of either batch loop, and still bound after the loop. *)
Record BatchVars := mkBatchVars {
  data_con : list Img;
  recon : list Img;
  ind : list Z;
  labels_con : list Z }.

Record Locals := mkLocals {
  best_accuracy : Scalar;
  batch_loss : Scalar;
  batch_accuracy : Scalar;
  batch_idx : Z;
  last_vars : option BatchVars }.

Record History := mkHistory {
  training_loss_list : list Scalar;
  training_acc_list : list Scalar;
  testing_loss_list : list Scalar;
  testing_acc_list : list Scalar }.

Definition Files := string -> option Blob.

Record State := mkState {
  deepcaps : Model;
  optimizer : OptState;
  vars : Locals;
  hist : History;
  files : Files;
  trace : list Event }.

Definition write_file (fs : Files) (path : string) (b : Blob) : Files :=
  fun p => if String.eqb p path then Some b else fs p.

(** ** State-and-exception monad *)

Definition M (A : Type) := State -> Res A * State.

Definition ret {A} (a : A) : M A := fun s => (Val a, s).

Definition bind {A C} (m : M A) (k : A -> M C) : M C :=
  fun s => match m s with
           | (Val a, s') => k a s'
           | (Exc e, s') => (Exc e, s')
           end.

Definition raise {A} (e : PyExn) : M A := fun s => (Exc e, s).

Definition get : M State := fun s => (Val s, s).

Definition modify (f : State -> State) : M unit := fun s => (Val tt, f s).

Notation "x <- m ;; k" := (bind m (fun x => k))
  (at level 61, m at next level, right associativity).
Notation "m ;; k" := (bind m (fun _ => k))
  (at level 61, right associativity).

Definition set_deepcaps (f : Model -> Model) (s : State) : State :=
  mkState (f (deepcaps s)) (optimizer s) (vars s) (hist s) (files s) (trace s).

Definition set_vars (f : Locals -> Locals) (s : State) : State :=
  mkState (deepcaps s) (optimizer s) (f (vars s)) (hist s) (files s) (trace s).

Definition set_hist (f : History -> History) (s : State) : State :=
  mkState (deepcaps s) (optimizer s) (vars s) (f (hist s)) (files s) (trace s).

Definition set_mode (m : Mode) : State -> State :=
  set_deepcaps (fun d => mkModel m (params d) (grads d)).

Definition emit_ev (ev : Event) (s : State) : State :=
  mkState (deepcaps s) (optimizer s) (vars s) (hist s) (files s)
          (trace s ++ [ev]).

Definition emit (ev : Event) : M unit := modify (emit_ev ev).

(** [x / n] for a Python number [x] and a Python int [n]. *)
Definition py_truediv (x : Scalar) (n : Z) : M Scalar :=
  if n =? 0 then raise ZeroDivisionError else ret (s_div x n).

(** ** The batch loops *)

(** Lines 62-64 and 99-101: [batch_loss = 0], [batch_accuracy = 0],
    [batch_idx = 0]. *)
Definition reset_counters : State -> State :=
  set_vars (fun v => mkLocals (best_accuracy v) s_zero s_zero 0 (last_vars v)).

(** [enumerate] binds [batch_idx] before the body runs. *)
Definition bind_batch_idx (i : Z) : State -> State :=
  set_vars (fun v => mkLocals (best_accuracy v) (batch_loss v)
                              (batch_accuracy v) i (last_vars v)).

(** Lines 86-87 and 118-119, together with the locals the body leaves
    bound. *)
Definition accumulate (loss acc : Scalar) (bv : BatchVars) : State -> State :=
  set_vars (fun v => mkLocals (best_accuracy v)
                              (s_add (batch_loss v) loss)
                              (s_add (batch_accuracy v) acc)
                              (batch_idx v) (Some bv)).

(** Lines 70-71 and 106-107. *)
Definition merge_data (b : Batch) : list Img := b_data b ++ b_optic b.
Definition merge_labels (b : Batch) : list Z := b_labels b ++ b_labels b.

(** Lines 72-73, 76-81 and 108-116: the forward pass and the loss on the
    merged batch, as both loop bodies compute them. *)
Definition forward_batch (c : Config) (d : Model) (b : Batch)
  : LossT * BatchVars :=
  let data_con := merge_data b in
  let labels_con := merge_labels b in
  let onehot_label := onehot_encode (b_labels b) (num_classes c) in
  let onehot_label_con := onehot_encode labels_con (num_classes c) in
  let o := forward (mode d) (params d) (b_data b) (b_optic b) onehot_label in
  let out := outputs o ++ outputs1 o in
  let recon := reconstructed o ++ reconstructed1 o in
  let ind := indices o ++ indices1 o in
  let loss := loss_fn (params d) out recon data_con onehot_label_con
                      (lambda_ c) (m_plus c) (m_minus c) in
  (loss, mkBatchVars data_con recon ind labels_con).

(** Lines 69-87. *)
Definition train_batch (c : Config) (b : Batch) (s : State) : State :=
  (* optimizer.zero_grad() *)
  let s1 := set_deepcaps (fun d => mkModel (mode d) (params d)
                                           (zero_grad (grads d))) s in
  let '(loss, bv) := forward_batch c (deepcaps s1) b in
  (* loss.backward() *)
  let g := backward loss (grads (deepcaps s1)) in
  (* optimizer.step() *)
  let '(o', p') := opt_step (optimizer s1) (params (deepcaps s1)) g in
  let s2 := mkState (mkModel (mode (deepcaps s1)) p' g) o'
                    (vars s1) (hist s1) (files s1) (trace s1) in
  accumulate (item loss) (accuracy_calc (ind bv) (labels_con bv)) bv s2.

(** Lines 105-119. *)
Definition test_batch (c : Config) (b : Batch) (s : State) : State :=
  let '(loss, bv) := forward_batch c (deepcaps s) b in
  accumulate (item loss) (accuracy_calc (ind bv) (labels_con bv)) bv s.

(** [for batch_idx, batch in enumerate(loader): body]. *)
Fixpoint for_enumerate (body : Batch -> State -> State)
         (i : Z) (loader : list Batch) (s : State) : State :=
  match loader with
  | [] => s
  | b :: rest => for_enumerate body (i + 1) rest (body b (bind_batch_idx i s))
  end.

(** Lines 62-95: the training pass and its finalization. *)
Definition train_phase (c : Config) (D : Loaders) (epoch_idx : nat)
  : M (Scalar * Scalar) :=
  modify reset_counters ;;
  modify (set_mode TrainMode) ;;
  modify (for_enumerate (train_batch c) 0 (train_loader D epoch_idx)) ;;
  s <- get ;;
  epoch_accuracy <- py_truediv (batch_accuracy (vars s)) (batch_idx (vars s) + 1) ;;
  avg_batch_loss <- py_truediv (batch_loss (vars s)) (batch_idx (vars s) + 1) ;;
  emit (EvPrintTrain epoch_idx epoch_accuracy avg_batch_loss) ;;
  modify (set_hist (fun h =>
    mkHistory (training_loss_list h ++ [avg_batch_loss])
              (training_acc_list h ++ [epoch_accuracy])
              (testing_loss_list h) (testing_acc_list h))) ;;
  ret (epoch_accuracy, avg_batch_loss).

(** Lines 99-104 and 122-124: the testing pass and its averages. *)
Definition test_phase (c : Config) (D : Loaders) (epoch_idx : nat)
  : M (Scalar * Scalar) :=
  modify reset_counters ;;
  modify (set_mode EvalMode) ;;
  modify (for_enumerate (test_batch c) 0 (test_loader D epoch_idx)) ;;
  s <- get ;;
  epoch_accuracy <- py_truediv (batch_accuracy (vars s)) (batch_idx (vars s) + 1) ;;
  half <- py_truediv (batch_loss (vars s)) (batch_idx (vars s) + 1) ;;
  avg_batch_loss <- py_truediv half 2 ;;
  emit (EvPrintTest epoch_idx epoch_accuracy avg_batch_loss) ;;
  ret (epoch_accuracy, avg_batch_loss).

(** Reading [ind], [labels_con], [data_con] or [recon]: unbound when no
    loop body has run yet. *)
Definition read_batch_vars (name : string) : M BatchVars :=
  s <- get ;;
  match last_vars (vars s) with
  | Some bv => ret bv
  | None => raise (UnboundLocalError name)
  end.

(** Lines 125-128: the F1 report, then the two testing history lists. *)
Definition report_f1 (epoch_accuracy avg_batch_loss : Scalar) : M unit :=
  bv <- read_batch_vars "ind" ;;
  emit (EvPrintF1 7 (ind bv) (labels_con bv)) ;;
  modify (set_hist (fun h =>
    mkHistory (training_loss_list h) (training_acc_list h)
              (testing_loss_list h ++ [avg_batch_loss])
              (testing_acc_list h ++ [epoch_accuracy]))).

(** Lines 132-137.  The two calls into plot.py are events of the trace;
    the files the plot sink writes are its own and are not part of
    [files], which holds what [torch.save] wrote. *)
Definition plots (c : Config) (epoch_idx : nat) : M unit :=
  match graphs_folder c with
  | Some path =>
      if (Z.of_nat epoch_idx mod 5 =? 0) then
        s <- get ;;
        emit (EvPlotLossAcc path epoch_idx
                (training_acc_list (hist s)) (training_loss_list (hist s))
                (testing_acc_list (hist s)) (testing_loss_list (hist s))) ;;
        bv <- read_batch_vars "data_con" ;;
        emit (EvPlotReconstruction path epoch_idx
                (data_con bv) (recon bv) (ind bv) (labels_con bv))
      else ret tt
  | None => ret tt
  end.

(** [torch.save(deepcaps.state_dict(), checkpoint_path)], taken to
    succeed: an error of the write itself (a missing folder, say) is
    raised inside torch and ends the real run there. *)
Definition save_checkpoint (path : string) (epoch_idx : nat) (s : State)
  : State :=
  let blob := state_dict (params (deepcaps s)) in
  mkState (deepcaps s) (optimizer s) (vars s) (hist s)
          (write_file (files s) path blob)
          (trace s ++ [EvSave path epoch_idx blob]).

(** Lines 141-144.  [best_accuracy] is read and never assigned. *)
Definition checkpoint (checkpoint_path : string) (epoch_idx : nat)
           (epoch_accuracy : Scalar) : M unit :=
  s <- get ;;
  if s_lt (best_accuracy (vars s)) epoch_accuracy then
    modify (save_checkpoint checkpoint_path epoch_idx) ;;
    emit (EvPrintSaved epoch_idx)
  else ret tt.

(** Lines 60-144: the body of the epoch loop. *)
Definition epoch (c : Config) (D : Loaders) (checkpoint_path : string)
           (epoch_idx : nat) : M unit :=
  s <- get ;;
  emit (EvPrintBegin epoch_idx (get_learning_rate (optimizer s))) ;;
  train_phase c D epoch_idx ;;
  r <- test_phase c D epoch_idx ;;
  report_f1 (fst r) (snd r) ;;
  plots c epoch_idx ;;
  checkpoint checkpoint_path epoch_idx (fst r).

(** [for epoch_idx in range(num_epochs)]. *)
Fixpoint for_range (body : nat -> M unit) (idxs : list nat) : M unit :=
  match idxs with
  | [] => ret tt
  | i :: rest => body i ;; for_range body rest
  end.

(** Line 33: [checkpoint_folder + checkpoint_name]; [+] with [None] on
    either side raises [TypeError]. *)
Definition checkpoint_path_of (c : Config) : M string :=
  match checkpoint_folder c, checkpoint_name c with
  | Some folder, Some name => ret (folder ++ name)%string
  | _, _ => raise TypeError
  end.

Definition is_some {A} (o : option A) : bool :=
  match o with Some _ => true | None => false end.

(** Lines 38-44. *)
Definition restore (c : Config) (checkpoint_path : string) : M unit :=
  s <- get ;;
  if load_checkpoint c && is_some (checkpoint_name c)
     && is_some (files s checkpoint_path) then
    match files s checkpoint_path with
    | Some blob =>
        match load_state_dict blob (params (deepcaps s)) with
        | inr p =>
            modify (set_deepcaps (fun d => mkModel (mode d) p (grads d))) ;;
            emit EvPrintLoaded
        | inl e =>
            emit (EvPrintExn e) ;;
            raise (SystemExit None)
        end
    | None => ret tt
    end
  else ret tt.

(** Lines 49-54. *)
Definition init_locals : Locals :=
  mkLocals s_zero s_zero s_zero 0 None.

(** The objects [train] constructs (lines 35, 46, 49-54) over the files
    that exist when it is called.  Constructing them has no other effect,
    so they are part of the initial state; the printed lines keep their
    place in [train]. *)
Definition start (c : Config) (fs : Files) : State :=
  mkState (mkModel TrainMode (init_model (num_classes c) (img_size c)) no_grads)
          (adam_init (learning_rate c))
          init_locals
          (mkHistory [] [] [] [])
          fs [].

(** Lines 33-144. *)
Definition train_body (c : Config) (D : Loaders) : M unit :=
  checkpoint_path <- checkpoint_path_of c ;;
  s <- get ;;
  emit (EvPrintModel (params (deepcaps s))) ;;
  restore c checkpoint_path ;;
  for_range (epoch c D checkpoint_path) (seq 0 (Z.to_nat (num_epochs c))).

Definition train (c : Config) (D : Loaders) (fs : Files) : Res unit * State :=
  train_body c D (start c fs).

(** ** Names for the intermediate states of an epoch *)

(** The state when the training loop of epoch [e] has run from [s]. *)
Definition after_train_loop (c : Config) (D : Loaders) (e : nat) (s : State)
  : State :=
  for_enumerate (train_batch c) 0 (train_loader D e)
                (set_mode TrainMode (reset_counters s)).

(** The state when the testing loop of epoch [e] has run from [s]. *)
Definition after_test_loop (c : Config) (D : Loaders) (e : nat) (s : State)
  : State :=
  for_enumerate (test_batch c) 0 (test_loader D e)
                (set_mode EvalMode (reset_counters s)).

(** The state in which the testing pass of epoch [e] starts, when the
    epoch starts in [s]. *)
Definition before_test (c : Config) (D : Loaders) (e : nat) (s : State)
  : State :=
  snd (train_phase c D e
         (emit_ev (EvPrintBegin e (get_learning_rate (optimizer s))) s)).

(** The training accuracy and loss that epoch [e] reports, when the
    epoch starts in [s]. *)
Definition training_averages (c : Config) (D : Loaders) (e : nat) (s : State)
  : Scalar * Scalar :=
  let s1 := after_train_loop c D e
              (emit_ev (EvPrintBegin e (get_learning_rate (optimizer s))) s) in
  (s_div (batch_accuracy (vars s1)) (batch_idx (vars s1) + 1),
   s_div (batch_loss (vars s1)) (batch_idx (vars s1) + 1)).

(** The testing accuracy of epoch [e], when the epoch starts in [s]. *)
Definition test_accuracy (c : Config) (D : Loaders) (e : nat) (s : State)
  : Scalar :=
  let s1 := after_test_loop c D e (before_test c D e s) in
  s_div (batch_accuracy (vars s1)) (batch_idx (vars s1) + 1).

(** What the forward pass in evaluation mode binds to [data_con],
    [recon], [ind] and [labels_con] for batch [b]. *)
Definition eval_vars (c : Config) (p : Params) (g : Grads) (b : Batch)
  : BatchVars :=
  snd (forward_batch c (mkModel EvalMode p g) b).

(** A loop body that leaves [batch_idx] and [best_accuracy] alone. *)
Definition quiet (body : Batch -> State -> State) : Prop :=
  forall b s,
    batch_idx (vars (body b s)) = batch_idx (vars s)
    /\ best_accuracy (vars (body b s)) = best_accuracy (vars s)
    /\ hist (body b s) = hist s
    /\ files (body b s) = files s
    /\ trace (body b s) = trace s.

(** [m] keeps the state invariant [I], also when it raises. *)
Definition preserves (I : State -> Prop) {A} (m : M A) : Prop :=
  forall s, I s -> I (snd (m s)).

(** [m] never raises [ZeroDivisionError]. *)
Definition no_zero_division {A} (m : M A) : Prop :=
  forall s, fst (m s) <> Exc ZeroDivisionError.

Definition is_plot (ev : Event) : bool :=
  match ev with
  | EvPlotLossAcc _ _ _ _ _ _ => true
  | EvPlotReconstruction _ _ _ _ _ _ => true
  | _ => false
  end.

Definition is_f1 (ev : Event) : bool :=
  match ev with
  | EvPrintF1 _ _ _ => true
  | _ => false
  end.

Definition is_save (ev : Event) : bool :=
  match ev with
  | EvSave _ _ _ => true
  | _ => false
  end.

(** The class count an F1 report was constructed with is 7. *)
Definition f1_over_seven (ev : Event) : Prop :=
  match ev with
  | EvPrintF1 k _ _ => k = 7
  | _ => True
  end.

End Orchestrator.

(** ** A small concrete backend

    Exact rationals for the numbers, integers for images and class
    outputs, a step counter for the parameters.  It is used to run [train]
    on concrete inputs. *)
Module Toy.

(** The class a model with parameters [p] predicts for image [x]: the
    image itself after exactly one optimiser step, class 0 otherwise. *)
Definition predict (p x : Z) : Z := if p =? 1 then x else 0.

(** Modelled from the spec: [accuracy_calc] of helpers.py, which is not
    under src/: "proportion of exact index matches" between the predicted
    indices and the labels. *)
Definition toy_accuracy_calc (predictions labels : list Z) : Q :=
  Qred (Qmake
    (Z.of_nat (List.length (filter (fun pl => fst pl =? snd pl)
                                   (combine predictions labels))))
    (Pos.of_nat (List.length labels))).

(** Modelled from the spec: [onehot_encode] of helpers.py, which is not
    under src/: "a 1 exactly at index L and 0 elsewhere". *)
Definition toy_onehot_encode (labels : list Z) (n : Z) : list (list Z) :=
  map (fun l => map (fun k => if Z.of_nat k =? l then 1 else 0)
                    (seq 0 (Z.to_nat n))) labels.

#[export] Instance toy : Backend := {|
  Scalar := Q;
  Img := Z;
  ClassOut := Z;
  OneHot := list (list Z);
  LossT := Q;
  Params := Z;
  Grads := Z;
  OptState := Z;
  Blob := option Z;
  ExtExn := string;
  s_zero := 0%Q;
  s_add := fun x y => Qred (x + y)%Q;
  s_div := fun x n => Qred (x / inject_Z n)%Q;
  s_lt := fun x y => negb (Qle_bool y x);
  onehot_encode := toy_onehot_encode;
  accuracy_calc := toy_accuracy_calc;
  get_learning_rate := fun _ => (1 # 1000)%Q;
  init_model := fun _ _ => 0;
  no_grads := 0;
  forward := fun _ p data optic _ =>
    mkOutputs (map (predict p) data) data (map (predict p) data)
              (map (predict p) optic) optic (map (predict p) optic);
  loss_fn := fun _ out _ _ _ _ _ _ => inject_Z (Z.of_nat (List.length out));
  item := fun l => l;
  backward := fun _ g => g + 1;
  zero_grad := fun _ => 0;
  adam_init := fun _ => 0;
  opt_step := fun o p g => (o + 1, p + g);
  state_dict := fun p => Some p;
  load_state_dict := fun blob _ =>
    match blob with
    | Some p => inr p
    | None => inl "corrupt checkpoint"%string
    end |}.

Definition batch01 : Batch := mkBatch [0; 1] [0; 1] [0; 1].

(** One batch of two samples in each loader, the same in every epoch. *)
Definition loaders : Loaders :=
  mkLoaders (fun _ => [batch01]) (fun _ => [batch01]).

(** No training batch at all. *)
Definition loaders_no_train : Loaders :=
  mkLoaders (fun _ => []) (fun _ => [batch01]).

(** No testing batch at all. *)
Definition loaders_no_test : Loaders :=
  mkLoaders (fun _ => [batch01]) (fun _ => []).

(** Two epochs, two classes, plots and checkpoints configured. *)
Definition cfg : Config :=
  mkConfig 8 (1 # 1000)%Q 2 2 (1 # 2)%Q (9 # 10)%Q (1 # 10)%Q
           (Some "ckpt/"%string) (Some "best.pt"%string) false
           (Some "graphs/"%string).

(** The same run, asked to restore the checkpoint first. *)
Definition cfg_restore : Config :=
  mkConfig 8 (1 # 1000)%Q 2 2 (1 # 2)%Q (9 # 10)%Q (1 # 10)%Q
           (Some "ckpt/"%string) (Some "best.pt"%string) true
           (Some "graphs/"%string).

Definition no_files : Files := fun _ => None.

(** A checkpoint file that cannot be restored. *)
Definition corrupt_files : Files :=
  fun p => if String.eqb p "ckpt/best.pt" then Some None else None.

End Toy.

(** ** The script around [train] *)

Section Script.

Context {B : Backend}.

(** The attributes of cfg.py that reach a value in [train]; cfg.py is not
    under src/, so they are arguments.  ([DEVICE], [DECAY_STEP],
    [DECAY_GAMMA] are passed on and never read; [DATASET_FOLDER] and
    [BATCH_SIZE] only shape the loaders.) *)
Record Cfg := mkCfg {
  LEARNING_RATE : Scalar;
  NUM_EPOCHS : Z;
  LAMBDA_ : Scalar;
  M_PLUS : Scalar;
  M_MINUS : Scalar;
  CHECKPOINT_FOLDER : option string;
  CHECKPOINT_NAME : option string;
  GRAPHS_FOLDER : option string }.

(** Lines 23-26: what [CASME2(...)()] returns. *)
Record Dataset := mkDataset {
  ds_loaders : Loaders;
  ds_img_size : Z;
  ds_num_class : Z }.

(** Lines 149-153: the call under [if __name__ == '__main__'], which
    passes [load_checkpoint=False]. *)
Definition main (cfg : Cfg) (ds : Dataset) (fs : Files) : Res unit * State :=
  train (mkConfig (ds_img_size ds) (LEARNING_RATE cfg) (NUM_EPOCHS cfg)
                  (ds_num_class ds) (LAMBDA_ cfg) (M_PLUS cfg) (M_MINUS cfg)
                  (CHECKPOINT_FOLDER cfg) (CHECKPOINT_NAME cfg) false
                  (GRAPHS_FOLDER cfg))
        (ds_loaders ds) fs.

(** The arguments [c] with [load_checkpoint=False]. *)
Definition without_restore (c : Config) : Config :=
  mkConfig (img_size c) (learning_rate c) (num_epochs c) (num_classes c)
           (lambda_ c) (m_plus c) (m_minus c)
           (checkpoint_folder c) (checkpoint_name c) false (graphs_folder c).

(** ** Closed forms used by the properties of whole epochs and runs *)

(** The state of [train] when line 36 has printed the model. *)
Definition fresh_state (c : Config) (fs : Files) : State :=
  emit_ev (EvPrintModel (init_model (num_classes c) (img_size c)))
          (start c fs).

(** The state of [train] when line 41 has printed, with the restored
    parameters [p]. *)
Definition loaded_state (c : Config) (fs : Files) (p : Params) : State :=
  emit_ev EvPrintLoaded
    (set_deepcaps (fun d => mkModel (mode d) p (grads d)) (fresh_state c fs)).

(** The plot events of epoch [e] over the history [h] and the bound
    batch variables [bv]. *)
Definition plot_events (c : Config) (e : nat) (h : History) (bv : BatchVars)
  : list Event :=
  match graphs_folder c with
  | Some folder =>
      if Z.of_nat e mod 5 =? 0 then
        [EvPlotLossAcc folder e
           (training_acc_list h) (training_loss_list h)
           (testing_acc_list h) (testing_loss_list h);
         EvPlotReconstruction folder e
           (data_con bv) (recon bv) (ind bv) (labels_con bv)]
      else []
  | None => []
  end.

(** The state at the end of epoch [e], from the state [s3] in which its
    testing loop ended with the batch variables [bv]. *)
Definition epoch_end (c : Config) (path : string) (e : nat) (s3 : State)
           (bv : BatchVars) : State :=
  let n := batch_idx (vars s3) + 1 in
  let acc := s_div (batch_accuracy (vars s3)) n in
  let avg := s_div (s_div (batch_loss (vars s3)) n) 2 in
  let h := mkHistory (training_loss_list (hist s3))
                     (training_acc_list (hist s3))
                     (testing_loss_list (hist s3) ++ [avg])
                     (testing_acc_list (hist s3) ++ [acc]) in
  let s6 := mkState (deepcaps s3) (optimizer s3) (vars s3) h (files s3)
                    (trace s3
                     ++ [EvPrintTest e acc avg;
                         EvPrintF1 7 (ind bv) (labels_con bv)]
                     ++ plot_events c e h bv) in
  if s_lt (best_accuracy (vars s3)) acc
  then emit_ev (EvPrintSaved e) (save_checkpoint path e s6)
  else s6.

(** A loop body that binds the batch variables. *)
Definition binds (body : Batch -> State -> State) : Prop :=
  forall b s, last_vars (vars (body b s)) <> None.

(** [m] raises no exception outside [E]. *)
Definition raises_within (E : PyExn -> Prop) {A} (m : M A) : Prop :=
  forall s e, fst (m s) = Exc e -> E e.

(** The only exception an epoch can raise. *)
Definition unbound_ind (e : PyExn) : Prop :=
  e = UnboundLocalError "ind".

(** A plot event of a run with arguments [c]: in the configured graphs
    folder, at an epoch of the run whose index is a multiple of 5. *)
Definition plot_ok (c : Config) (ev : Event) : Prop :=
  match ev with
  | EvPlotLossAcc p e _ _ _ _
  | EvPlotReconstruction p e _ _ _ _ =>
      graphs_folder c = Some p
      /\ (e mod 5 = 0)%nat
      /\ Z.of_nat e < num_epochs c
  | _ => True
  end.

(** A save event of a run with arguments [c]: to the checkpoint path, at
    an epoch of the run. *)
Definition save_ok (c : Config) (ev : Event) : Prop :=
  match ev with
  | EvSave p e _ =>
      (exists folder name,
          checkpoint_folder c = Some folder
          /\ checkpoint_name c = Some name
          /\ p = (folder ++ name)%string)
      /\ Z.of_nat e < num_epochs c
  | _ => True
  end.

(** What an event of a run with arguments [c] can be. *)
Definition run_event (c : Config) (ev : Event) : Prop :=
  match ev with
  | EvPrintModel p => p = init_model (num_classes c) (img_size c)
  | EvPrintLoaded | EvPrintExn _ => load_checkpoint c = true
  | EvPrintBegin e _ | EvPrintTrain e _ _ | EvPrintTest e _ _
  | EvPrintSaved e => Z.of_nat e < num_epochs c
  | EvPrintF1 k _ _ => k = 7
  | EvPlotLossAcc _ _ _ _ _ _ | EvPlotReconstruction _ _ _ _ _ _ =>
      plot_ok c ev
  | EvSave _ _ _ => save_ok c ev
  end.

(** An event that only the restore of lines 38-44 emits. *)
Definition is_restore_event (ev : Event) : bool :=
  match ev with
  | EvPrintLoaded => true
  | EvPrintExn _ => true
  | _ => false
  end.

End Script.

(** ** More concrete inputs *)
Module Scenarios.

Import Toy.

(** [train] called with its default [checkpoint_folder=None] and
    [checkpoint_name=None]. *)
Definition cfg_defaults : Config :=
  mkConfig 8 (1 # 1000)%Q 500 7 (1 # 2)%Q (9 # 10)%Q (1 # 10)%Q
           None None false None.

(** No epoch at all. *)
Definition cfg_no_epoch : Config :=
  mkConfig 8 (1 # 1000)%Q 0 2 (1 # 2)%Q (9 # 10)%Q (1 # 10)%Q
           (Some "ckpt/"%string) (Some "best.pt"%string) false
           (Some "graphs/"%string).

(** Neither loader yields a batch. *)
Definition loaders_empty : Loaders :=
  mkLoaders (fun _ => []) (fun _ => []).

(** A checkpoint file written by an earlier run, with parameters 5. *)
Definition saved_files : Files :=
  fun p => if String.eqb p "ckpt/best.pt" then Some (Some 5) else None.

(** The script's configuration and dataset. *)
Definition script_cfg : Cfg :=
  mkCfg (1 # 1000)%Q 2 (1 # 2)%Q (9 # 10)%Q (1 # 10)%Q
        (Some "ckpt/"%string) (Some "best.pt"%string) (Some "graphs/"%string).

Definition script_dataset : Dataset := mkDataset loaders 8 2.

End Scenarios.

(** * Properties *)

Section Facts.

Context {B : Backend}.

(** ** The batch loops *)

Lemma for_enumerate_snoc (body : Batch -> State -> State) l b : forall i s,
  for_enumerate body i (l ++ [b]) s
  = body b (bind_batch_idx (i + Z.of_nat (List.length l))
                           (for_enumerate body i l s)).
Proof.
  induction l as [|a l IH]; intros i s.
  - simpl. now rewrite Z.add_0_r.
  - cbn [app for_enumerate List.length]. rewrite IH.
    do 2 f_equal. lia.
Qed.

Lemma train_batch_vars c b s :
  vars (train_batch c b s) = vars (test_batch c b s).
Proof.
  unfold train_batch, test_batch, forward_batch. cbn.
  destruct (opt_step _ _ _) as [o' p']. reflexivity.
Qed.

Lemma train_batch_frame c b s :
  hist (train_batch c b s) = hist s
  /\ files (train_batch c b s) = files s
  /\ trace (train_batch c b s) = trace s
  /\ mode (deepcaps (train_batch c b s)) = mode (deepcaps s).
Proof.
  unfold train_batch, forward_batch. cbn.
  destruct (opt_step _ _ _) as [o' p']. repeat split.
Qed.

Lemma test_batch_frame c b s :
  deepcaps (test_batch c b s) = deepcaps s
  /\ optimizer (test_batch c b s) = optimizer s
  /\ hist (test_batch c b s) = hist s
  /\ files (test_batch c b s) = files s
  /\ trace (test_batch c b s) = trace s.
Proof. repeat split. Qed.

Lemma test_batch_last_vars c b s :
  last_vars (vars (test_batch c b s))
  = Some (snd (forward_batch c (deepcaps s) b)).
Proof. reflexivity. Qed.

Lemma test_batch_quiet c : quiet (test_batch c).
Proof. intros b s. repeat split. Qed.

Lemma train_batch_quiet c : quiet (train_batch c).
Proof.
  intros b s. rewrite train_batch_vars.
  destruct (train_batch_frame c b s) as (Hh & Hf & Ht & _).
  repeat split; assumption.
Qed.

Lemma for_enumerate_batch_idx body (Hq : quiet body) l : forall i s,
  batch_idx (vars (for_enumerate body i l s))
  = match l with
    | [] => batch_idx (vars s)
    | _ :: _ => i + Z.of_nat (List.length l) - 1
    end.
Proof.
  induction l as [|a l IH]; intros i s; [reflexivity|].
  cbn [for_enumerate]. rewrite IH. destruct l as [|a' l'].
  - destruct (Hq a (bind_batch_idx i s)) as (H & _). rewrite H.
    cbn. lia.
  - cbn [List.length]. lia.
Qed.

Lemma for_enumerate_quiet body (Hq : quiet body) l : forall i s,
  best_accuracy (vars (for_enumerate body i l s)) = best_accuracy (vars s)
  /\ hist (for_enumerate body i l s) = hist s
  /\ files (for_enumerate body i l s) = files s
  /\ trace (for_enumerate body i l s) = trace s.
Proof.
  induction l as [|a l IH]; intros i s; [repeat split|].
  cbn [for_enumerate].
  destruct (IH (i + 1) (body a (bind_batch_idx i s))) as (H1 & H2 & H3 & H4).
  destruct (Hq a (bind_batch_idx i s)) as (_ & G1 & G2 & G3 & G4).
  rewrite H1, H2, H3, H4, G1, G2, G3, G4. repeat split.
Qed.

Lemma test_loop_model c l : forall i s,
  deepcaps (for_enumerate (test_batch c) i l s) = deepcaps s
  /\ optimizer (for_enumerate (test_batch c) i l s) = optimizer s.
Proof.
  induction l as [|a l IH]; intros i s; [split; reflexivity|].
  cbn [for_enumerate]. destruct (IH (i + 1) (test_batch c a (bind_batch_idx i s)))
    as [H1 H2].
  rewrite H1, H2. split; reflexivity.
Qed.

(** The divisor [batch_idx + 1] of the finalization is the number of
    batches, and 1 when there is none. *)
Lemma divisor_after_loop body (Hq : quiet body) l s :
  batch_idx (vars (for_enumerate body 0 l (set_mode TrainMode (reset_counters s)))) + 1
  = Z.max 1 (Z.of_nat (List.length l))
  /\ batch_idx (vars (for_enumerate body 0 l (set_mode EvalMode (reset_counters s)))) + 1
  = Z.max 1 (Z.of_nat (List.length l)).
Proof.
  rewrite !for_enumerate_batch_idx by assumption.
  destruct l as [|a l]; [split; reflexivity|].
  cbn [List.length]. lia.
Qed.

(** ** Epoch finalization *)

Lemma divisor_train c D e s :
  batch_idx (vars (after_train_loop c D e s)) + 1
  = Z.max 1 (Z.of_nat (List.length (train_loader D e))).
Proof. apply (divisor_after_loop _ (train_batch_quiet c)). Qed.

Lemma divisor_test c D e s :
  batch_idx (vars (after_test_loop c D e s)) + 1
  = Z.max 1 (Z.of_nat (List.length (test_loader D e))).
Proof. apply (divisor_after_loop _ (test_batch_quiet c)). Qed.

Lemma train_phase_run c D e s :
  let s1 := after_train_loop c D e s in
  let n := batch_idx (vars s1) + 1 in
  let acc := s_div (batch_accuracy (vars s1)) n in
  let avg := s_div (batch_loss (vars s1)) n in
  train_phase c D e s
  = (Val (acc, avg),
     set_hist (fun h => mkHistory (training_loss_list h ++ [avg])
                                  (training_acc_list h ++ [acc])
                                  (testing_loss_list h) (testing_acc_list h))
              (emit_ev (EvPrintTrain e acc avg) s1)).
Proof.
  intros s1 n acc avg.
  assert (Hn : (n =? 0) = false).
  { apply Z.eqb_neq. unfold n, s1. rewrite divisor_train. lia. }
  unfold train_phase, bind, modify, get, py_truediv, emit, ret. cbn beta iota.
  fold (after_train_loop c D e s). fold s1. fold n.
  rewrite Hn. reflexivity.
Qed.

Lemma test_phase_run c D e s :
  let s1 := after_test_loop c D e s in
  let n := batch_idx (vars s1) + 1 in
  let acc := s_div (batch_accuracy (vars s1)) n in
  let avg := s_div (s_div (batch_loss (vars s1)) n) 2 in
  test_phase c D e s
  = (Val (acc, avg), emit_ev (EvPrintTest e acc avg) s1).
Proof.
  intros s1 n acc avg.
  assert (Hn : (n =? 0) = false).
  { apply Z.eqb_neq. unfold n, s1. rewrite divisor_test. lia. }
  unfold test_phase, bind, modify, get, py_truediv, emit, ret. cbn beta iota.
  fold (after_test_loop c D e s). fold s1. fold n.
  rewrite Hn. reflexivity.
Qed.

(** ** The tail of an epoch *)

Lemma read_batch_vars_run name s bv :
  last_vars (vars s) = Some bv ->
  read_batch_vars name s = (Val bv, s).
Proof.
  intros H. unfold read_batch_vars, bind, get, ret. cbn beta iota.
  now rewrite H.
Qed.

Lemma report_f1_run acc avg s bv :
  last_vars (vars s) = Some bv ->
  report_f1 acc avg s
  = (Val tt,
     set_hist (fun h => mkHistory (training_loss_list h) (training_acc_list h)
                                  (testing_loss_list h ++ [avg])
                                  (testing_acc_list h ++ [acc]))
              (emit_ev (EvPrintF1 7 (ind bv) (labels_con bv)) s)).
Proof.
  intros H. unfold report_f1, bind. rewrite (read_batch_vars_run _ _ _ H).
  reflexivity.
Qed.

(** The events [plots] emits in epoch [e], given the history lists and
    the bound batch variables. *)
Lemma plots_run c e s bv :
  last_vars (vars s) = Some bv ->
  exists evs,
    plots c e s
    = (Val tt, mkState (deepcaps s) (optimizer s) (vars s) (hist s) (files s)
                       (trace s ++ evs))
    /\ evs = match graphs_folder c with
             | Some path =>
                 if Z.of_nat e mod 5 =? 0 then
                   [EvPlotLossAcc path e
                      (training_acc_list (hist s)) (training_loss_list (hist s))
                      (testing_acc_list (hist s)) (testing_loss_list (hist s));
                    EvPlotReconstruction path e
                      (data_con bv) (recon bv) (ind bv) (labels_con bv)]
                 else []
             | None => []
             end.
Proof.
  intros H. eexists. split; [|reflexivity].
  unfold plots. destruct (graphs_folder c) as [path|].
  - destruct (Z.of_nat e mod 5 =? 0).
    + unfold bind, get, emit, modify. cbn beta iota.
      rewrite (read_batch_vars_run _ _ bv) by exact H.
      unfold emit_ev. cbn. now rewrite <- app_assoc.
    + unfold ret. rewrite app_nil_r. now destruct s.
  - unfold ret. rewrite app_nil_r. now destruct s.
Qed.

Lemma checkpoint_run path e acc s :
  checkpoint path e acc s
  = (Val tt, if s_lt (best_accuracy (vars s)) acc
             then emit_ev (EvPrintSaved e) (save_checkpoint path e s)
             else s).
Proof.
  unfold checkpoint, bind, get. cbn beta iota.
  destruct (s_lt _ _); reflexivity.
Qed.

Lemma checkpoint_run_at path e acc s b :
  best_accuracy (vars s) = b ->
  checkpoint path e acc s
  = (Val tt, if s_lt b acc
             then emit_ev (EvPrintSaved e) (save_checkpoint path e s)
             else s).
Proof. intros <-. apply checkpoint_run. Qed.

(** ** One epoch *)

Lemma before_test_frame c D e s :
  trace (before_test c D e s)
  = trace s ++ [EvPrintBegin e (get_learning_rate (optimizer s));
                EvPrintTrain e
                  (fst (training_averages c D e s))
                  (snd (training_averages c D e s))]
  /\ files (before_test c D e s) = files s
  /\ best_accuracy (vars (before_test c D e s)) = best_accuracy (vars s)
  /\ testing_acc_list (hist (before_test c D e s)) = testing_acc_list (hist s)
  /\ testing_loss_list (hist (before_test c D e s))
     = testing_loss_list (hist s).
Proof.
  unfold before_test, training_averages.
  rewrite train_phase_run. cbn [snd fst].
  unfold after_train_loop.
  match goal with
  | |- context [for_enumerate ?b ?i ?l ?s0] =>
      destruct (for_enumerate_quiet b (train_batch_quiet c) l i s0)
        as (H1 & H2 & H3 & H4)
  end.
  cbn [set_hist emit_ev trace files vars hist
       testing_acc_list testing_loss_list].
  rewrite H1, H2, H3, H4. cbn. rewrite <- app_assoc. repeat split.
Qed.

Lemma test_loop_frame c D e s :
  params (deepcaps (after_test_loop c D e s)) = params (deepcaps s)
  /\ grads (deepcaps (after_test_loop c D e s)) = grads (deepcaps s)
  /\ mode (deepcaps (after_test_loop c D e s)) = EvalMode
  /\ optimizer (after_test_loop c D e s) = optimizer s
  /\ hist (after_test_loop c D e s) = hist s
  /\ files (after_test_loop c D e s) = files s
  /\ trace (after_test_loop c D e s) = trace s
  /\ best_accuracy (vars (after_test_loop c D e s)) = best_accuracy (vars s).
Proof.
  unfold after_test_loop.
  match goal with
  | |- context [for_enumerate ?b ?i ?l ?s0] =>
      destruct (for_enumerate_quiet b (test_batch_quiet c) l i s0)
        as (H1 & H2 & H3 & H4);
      destruct (test_loop_model c l i s0) as (H5 & H6)
  end.
  rewrite H1, H2, H3, H4, H5, H6. repeat split.
Qed.

Lemma epoch_run c D path e s bv :
  let s2 := before_test c D e s in
  let s3 := after_test_loop c D e s2 in
  let acc := test_accuracy c D e s in
  let avg := s_div (s_div (batch_loss (vars s3)) (batch_idx (vars s3) + 1)) 2 in
  let save := s_lt (best_accuracy (vars s)) acc in
  last_vars (vars s3) = Some bv ->
  exists s' plot_evs,
    epoch c D path e s = (Val tt, s')
    /\ trace s'
       = trace s2
         ++ [EvPrintTest e acc avg; EvPrintF1 7 (ind bv) (labels_con bv)]
         ++ plot_evs
         ++ (if save
             then [EvSave path e (state_dict (params (deepcaps s2)));
                   EvPrintSaved e]
             else [])
    /\ plot_evs
       = match graphs_folder c with
         | Some folder =>
             if Z.of_nat e mod 5 =? 0 then
               [EvPlotLossAcc folder e
                  (training_acc_list (hist s')) (training_loss_list (hist s'))
                  (testing_acc_list (hist s')) (testing_loss_list (hist s'));
                EvPlotReconstruction folder e
                  (data_con bv) (recon bv) (ind bv) (labels_con bv)]
             else []
         | None => []
         end
    /\ files s'
       = (if save
          then write_file (files s) path (state_dict (params (deepcaps s2)))
          else files s)
    /\ testing_acc_list (hist s') = testing_acc_list (hist s) ++ [acc]
    /\ testing_loss_list (hist s') = testing_loss_list (hist s) ++ [avg]
    /\ vars s' = vars s3
    /\ params (deepcaps s') = params (deepcaps s2).
Proof.
  intros s2 s3 acc avg save Hbv.
  pose proof (test_phase_run c D e s2) as Hte. cbv zeta in Hte.
  fold s3 in Hte. fold avg in Hte.
  change (s_div (batch_accuracy (vars s3)) (batch_idx (vars s3) + 1))
    with acc in Hte.
  destruct (test_loop_frame c D e s2) as (Tp & Tg & Tm & To & Th & Tf & Tt & Tb).
  fold s3 in Tp, Tg, Tm, To, Th, Tf, Tt, Tb.
  destruct (before_test_frame c D e s) as (Bt & Bf & Bb & Ba & Bl).
  fold s2 in Bt, Bf, Bb, Ba, Bl.
  set (s4 := emit_ev (EvPrintTest e acc avg) s3) in *.
  set (s5 := set_hist (fun h => mkHistory (training_loss_list h)
                                  (training_acc_list h)
                                  (testing_loss_list h ++ [avg])
                                  (testing_acc_list h ++ [acc]))
               (emit_ev (EvPrintF1 7 (ind bv) (labels_con bv)) s4)).
  destruct (plots_run c e s5 bv Hbv) as (pevs & Hpl & Hpevs).
  set (s6 := mkState (deepcaps s5) (optimizer s5) (vars s5) (hist s5)
                     (files s5) (trace s5 ++ pevs)) in *.
  exists (if save then emit_ev (EvPrintSaved e) (save_checkpoint path e s6)
          else s6), pevs.
  assert (Hrun : epoch c D path e s
                 = (Val tt, if save
                            then emit_ev (EvPrintSaved e)
                                         (save_checkpoint path e s6)
                            else s6)).
  { unfold epoch, bind at 1 2 3, get, emit, modify. cbn beta iota.
    pose proof (train_phase_run c D e
      (emit_ev (EvPrintBegin e (get_learning_rate (optimizer s))) s)) as Htr.
    cbv zeta in Htr.
    unfold bind at 1. rewrite Htr.
    assert (Hs2 : s2 = snd (train_phase c D e
      (emit_ev (EvPrintBegin e (get_learning_rate (optimizer s))) s)))
      by reflexivity.
    rewrite Htr in Hs2. cbn [snd] in Hs2. rewrite <- Hs2.
    unfold bind at 1. rewrite Hte. cbn [fst snd].
    unfold bind at 1. rewrite (report_f1_run acc avg s4 bv).
    2:{ unfold s4. cbn. exact Hbv. }
    fold s5. unfold bind. rewrite Hpl. apply checkpoint_run_at.
    cbn. rewrite Tb. exact Bb. }
  split; [exact Hrun|].
  clear Hrun Hpl Hte. clearbody save acc avg. clearbody s3. clearbody s2.
  subst s6 s5 s4.
  destruct save; cbn; rewrite ?Tt, ?Tf, ?Bf, ?Th, ?Ba, ?Bl, ?Tp;
    cbn in Hpevs; rewrite ?Th, ?Ba, ?Bl in Hpevs;
    rewrite <- ?app_assoc; cbn; rewrite ?app_nil_r;
    repeat split; exact Hpevs.
Qed.

Lemma test_loop_last_vars c D e s l b :
  test_loader D e = l ++ [b] ->
  last_vars (vars (after_test_loop c D e s))
  = Some (eval_vars c (params (deepcaps s)) (grads (deepcaps s)) b).
Proof.
  intros Hl. unfold after_test_loop. rewrite Hl, for_enumerate_snoc.
  rewrite test_batch_last_vars. unfold eval_vars. do 3 f_equal.
  cbn [bind_batch_idx set_vars deepcaps].
  destruct (test_loop_model c l 0 (set_mode EvalMode (reset_counters s)))
    as [H _].
  rewrite H. reflexivity.
Qed.

(** ** Invariants of the whole run *)

Lemma preserves_ret I {A} (a : A) : preserves I (ret a).
Proof. intros s Hs. exact Hs. Qed.

Lemma preserves_raise I {A} e : preserves I (@raise B A e).
Proof. intros s Hs. exact Hs. Qed.

Lemma preserves_get I : preserves I get.
Proof. intros s Hs. exact Hs. Qed.

Lemma preserves_modify (I : State -> Prop) f :
  (forall s, I s -> I (f s)) -> preserves I (modify f).
Proof. intros Hf s Hs. apply Hf, Hs. Qed.

Lemma preserves_bind I {A C} (m : M A) (k : A -> M C) :
  preserves I m -> (forall a, preserves I (k a)) -> preserves I (bind m k).
Proof.
  intros Hm Hk s Hs. unfold bind. specialize (Hm s Hs).
  destruct (m s) as [[a|e] s1]; cbn [snd] in *.
  - apply Hk, Hm.
  - exact Hm.
Qed.

Ltac preserves_step :=
  match goal with
  | |- preserves _ (bind _ _) => apply preserves_bind; [|intros ?]
  | |- preserves _ (ret _) => apply preserves_ret
  | |- preserves _ (raise _) => apply preserves_raise
  | |- preserves _ get => apply preserves_get
  | |- preserves _ (modify _) => apply preserves_modify
  | |- preserves _ (if ?b then _ else _) => destruct b
  | |- preserves _ (match ?o with _ => _ end) => destruct o
  end.

(** An invariant that every state update of an epoch keeps is kept by
    the epoch. *)
Lemma epoch_preserves (I : State -> Prop) c D path e :
  (forall s, I s -> I (reset_counters s)) ->
  (forall f s, I s -> I (set_deepcaps f s)) ->
  (forall body i l s, quiet body -> I s -> I (for_enumerate body i l s)) ->
  (forall f s, I s -> I (set_hist f s)) ->
  (forall ev s, f1_over_seven ev -> I s -> I (emit_ev ev s)) ->
  (forall s, I s -> I (save_checkpoint path e s)) ->
  preserves I (epoch c D path e).
Proof.
  intros Hreset Hmode Hloop Hhist Hemit Hsave.
  unfold epoch, train_phase, test_phase, report_f1, plots, checkpoint,
    read_batch_vars, py_truediv, emit.
  repeat preserves_step; intros s0 Hs0;
    auto using train_batch_quiet, test_batch_quiet.
  all: try (apply Hmode; assumption).
  all: apply Hemit; [reflexivity | assumption].
Qed.

Lemma for_range_preserves I (body : nat -> M unit) idxs :
  (forall i, preserves I (body i)) -> preserves I (for_range body idxs).
Proof.
  intros Hb. induction idxs as [|i rest IH]; cbn [for_range].
  - apply preserves_ret.
  - apply preserves_bind; [apply Hb | intros _; exact IH].
Qed.

Lemma train_body_preserves (I : State -> Prop) c D :
  (forall s, I s -> I (reset_counters s)) ->
  (forall f s, I s -> I (set_deepcaps f s)) ->
  (forall body i l s, quiet body -> I s -> I (for_enumerate body i l s)) ->
  (forall f s, I s -> I (set_hist f s)) ->
  (forall ev s, f1_over_seven ev -> I s -> I (emit_ev ev s)) ->
  (forall path e s, I s -> I (save_checkpoint path e s)) ->
  preserves I (train_body c D).
Proof.
  intros Hreset Hmodel Hloop Hhist Hemit Hsave.
  unfold train_body, checkpoint_path_of, restore, emit.
  repeat preserves_step; try (intros s0 Hs0; auto; now apply Hemit).
  all: try (apply for_range_preserves; intros e;
            apply epoch_preserves; auto).
Qed.

(** Every F1 report of a run is over 7 classes. *)
Lemma f1_invariant c D :
  preserves (fun s => Forall f1_over_seven (trace s)) (train_body c D).
Proof.
  apply train_body_preserves.
  - intros s Hs. exact Hs.
  - intros f s Hs. exact Hs.
  - intros body i l s Hq Hs.
    destruct (for_enumerate_quiet body Hq l i s) as (_ & _ & _ & Ht).
    now rewrite Ht.
  - intros f s Hs. exact Hs.
  - intros ev s Hev Hs. cbn. apply Forall_app. split; [exact Hs|].
    constructor; [exact Hev | constructor].
  - intros path e s Hs. cbn. apply Forall_app. split; [exact Hs|].
    constructor; [exact I | constructor].
Qed.

(** No statement of [train] assigns [best_accuracy] after line 49. *)
Lemma best_accuracy_invariant c D :
  preserves (fun s => best_accuracy (vars s) = s_zero) (train_body c D).
Proof.
  apply train_body_preserves.
  - intros s Hs. exact Hs.
  - intros f s Hs. exact Hs.
  - intros body i l s Hq Hs.
    destruct (for_enumerate_quiet body Hq l i s) as (Hb & _).
    now rewrite Hb.
  - intros f s Hs. exact Hs.
  - intros ev s _ Hs. exact Hs.
  - intros path e s Hs. exact Hs.
Qed.

Lemma best_accuracy_never_assigned c D fs :
  best_accuracy (vars (snd (train c D fs))) = s_zero.
Proof. apply best_accuracy_invariant. reflexivity. Qed.

(** ** The evaluation pass depends on the parameters only *)

Lemma test_loop_accumulators c l : forall i s1 s2,
  mode (deepcaps s1) = mode (deepcaps s2) ->
  params (deepcaps s1) = params (deepcaps s2) ->
  batch_loss (vars s1) = batch_loss (vars s2) ->
  batch_accuracy (vars s1) = batch_accuracy (vars s2) ->
  batch_idx (vars s1) = batch_idx (vars s2) ->
  let r1 := for_enumerate (test_batch c) i l s1 in
  let r2 := for_enumerate (test_batch c) i l s2 in
  batch_loss (vars r1) = batch_loss (vars r2)
  /\ batch_accuracy (vars r1) = batch_accuracy (vars r2)
  /\ batch_idx (vars r1) = batch_idx (vars r2).
Proof.
  induction l as [|a l IH]; intros i s1 s2 Hm Hp Hl Ha Hi; cbn zeta.
  - auto.
  - cbn [for_enumerate].
    apply IH; cbn; rewrite ?Hm, ?Hp, ?Hl, ?Ha; reflexivity.
Qed.

Lemma test_phase_params_only c D e s1 s2 :
  params (deepcaps s1) = params (deepcaps s2) ->
  fst (test_phase c D e s1) = fst (test_phase c D e s2)
  /\ batch_loss (vars (snd (test_phase c D e s1)))
     = batch_loss (vars (snd (test_phase c D e s2)))
  /\ batch_accuracy (vars (snd (test_phase c D e s1)))
     = batch_accuracy (vars (snd (test_phase c D e s2))).
Proof.
  intros Hp. rewrite !test_phase_run. cbn [fst snd emit_ev vars].
  unfold after_test_loop.
  destruct (test_loop_accumulators c (test_loader D e) 0
              (set_mode EvalMode (reset_counters s1))
              (set_mode EvalMode (reset_counters s2)))
    as (Hl & Ha & Hi); try reflexivity; try exact Hp.
  rewrite Hl, Ha, Hi. repeat split.
Qed.

Lemma test_phase_frame c D e s :
  params (deepcaps (snd (test_phase c D e s))) = params (deepcaps s)
  /\ grads (deepcaps (snd (test_phase c D e s))) = grads (deepcaps s)
  /\ optimizer (snd (test_phase c D e s)) = optimizer s.
Proof.
  rewrite test_phase_run. cbn [snd emit_ev deepcaps optimizer].
  destruct (test_loop_frame c D e s) as (Hp & Hg & _ & Ho & _).
  now rewrite Hp, Hg, Ho.
Qed.

(** The testing loop adds up, batch by batch, the loss and the accuracy
    that the model in evaluation mode gives on each batch. *)
Lemma test_loop_sums c l : forall i s,
  let d := deepcaps s in
  let r := for_enumerate (test_batch c) i l s in
  batch_loss (vars r)
  = fold_left s_add
      (map (fun b => item (fst (forward_batch c d b))) l)
      (batch_loss (vars s))
  /\ batch_accuracy (vars r)
     = fold_left s_add
         (map (fun b => let bv := snd (forward_batch c d b) in
                        accuracy_calc (ind bv) (labels_con bv)) l)
         (batch_accuracy (vars s)).
Proof.
  induction l as [|a l IH]; intros i s; cbn zeta; [split; reflexivity|].
  cbn [for_enumerate map fold_left].
  destruct (IH (i + 1) (test_batch c a (bind_batch_idx i s))) as [H1 H2].
  rewrite H1, H2. split; reflexivity.
Qed.

(** ** The claims *)

(** C4.  For a batch whose primary images, secondary images and labels
    all have batch size [n], the merged image tensor the orchestrator
    builds has batch size [2 * n], holds the primary input at the indices
    below [n] and the secondary input at the indices from [n] on, and the
    merged labels are the labels followed by the same labels. *)
Theorem merged_batch_layout c d (b : Batch) (n : nat) :
  List.length (b_data b) = n ->
  List.length (b_optic b) = n ->
  List.length (b_labels b) = n ->
  let bv := snd (forward_batch c d b) in
  List.length (data_con bv) = (2 * n)%nat
  /\ (forall i, (i < n)%nat ->
        nth_error (data_con bv) i = nth_error (b_data b) i
        /\ nth_error (data_con bv) (n + i) = nth_error (b_optic b) i)
  /\ labels_con bv = b_labels b ++ b_labels b
  /\ List.length (labels_con bv) = (2 * n)%nat
  /\ (forall i, (i < n)%nat ->
        nth_error (labels_con bv) i = nth_error (b_labels b) i
        /\ nth_error (labels_con bv) (n + i) = nth_error (b_labels b) i).
Proof.
  intros Hd Ho Hl bv. unfold bv, forward_batch. cbn [snd data_con labels_con].
  unfold merge_data, merge_labels. rewrite !length_app, Hd, Ho, Hl.
  repeat split; try lia.
  - rewrite nth_error_app1 by lia. reflexivity.
  - rewrite nth_error_app2 by lia. f_equal. lia.
  - rewrite nth_error_app1 by lia. reflexivity.
  - rewrite nth_error_app2 by lia. f_equal. lia.
Qed.

(** C5.  With at least one batch in each loader, the reported testing
    loss is the accumulated testing loss divided by the number of batches
    and then divided by 2, and the reported training loss is the
    accumulated training loss divided by the number of batches, with no
    further factor. *)
Theorem test_loss_is_halved c D e s :
  train_loader D e <> [] ->
  test_loader D e <> [] ->
  let s_tr := after_train_loop c D e s in
  let s_te := after_test_loop c D e s in
  let n_tr := Z.of_nat (List.length (train_loader D e)) in
  let n_te := Z.of_nat (List.length (test_loader D e)) in
  let train_loss := s_div (batch_loss (vars s_tr)) n_tr in
  let test_loss := s_div (s_div (batch_loss (vars s_te)) n_te) 2 in
  fst (train_phase c D e s)
  = Val (s_div (batch_accuracy (vars s_tr)) n_tr, train_loss)
  /\ fst (test_phase c D e s)
     = Val (s_div (batch_accuracy (vars s_te)) n_te, test_loss)
  /\ trace (snd (train_phase c D e s))
     = trace s ++ [EvPrintTrain e (s_div (batch_accuracy (vars s_tr)) n_tr)
                                train_loss]
  /\ trace (snd (test_phase c D e s))
     = trace s ++ [EvPrintTest e (s_div (batch_accuracy (vars s_te)) n_te)
                               test_loss]
  /\ batch_loss (vars s_te)
     = fold_left s_add
         (map (fun b => item (fst (forward_batch c
                 (mkModel EvalMode (params (deepcaps s)) (grads (deepcaps s)))
                 b)))
              (test_loader D e))
         s_zero.
Proof.
  intros Htr Hte s_tr s_te n_tr n_te train_loss test_loss.
  assert (Hsum : batch_loss (vars s_te)
     = fold_left s_add
         (map (fun b => item (fst (forward_batch c
                 (mkModel EvalMode (params (deepcaps s)) (grads (deepcaps s)))
                 b)))
              (test_loader D e))
         s_zero).
  { unfold s_te, after_test_loop.
    destruct (test_loop_sums c (test_loader D e) 0
                (set_mode EvalMode (reset_counters s))) as [H _].
    exact H. }
  rewrite <- Hsum. clear Hsum.
  rewrite train_phase_run, test_phase_run. cbn [fst snd].
  fold s_tr s_te.
  assert (H1 : batch_idx (vars s_tr) + 1 = n_tr).
  { unfold s_tr, n_tr. rewrite divisor_train.
    destruct (train_loader D e); [contradiction|cbn [List.length]; lia]. }
  assert (H2 : batch_idx (vars s_te) + 1 = n_te).
  { unfold s_te, n_te. rewrite divisor_test.
    destruct (test_loader D e); [contradiction|cbn [List.length]; lia]. }
  rewrite H1, H2. cbn [set_hist emit_ev trace].
  unfold s_tr, s_te, after_train_loop, after_test_loop.
  destruct (for_enumerate_quiet _ (train_batch_quiet c) (train_loader D e) 0
              (set_mode TrainMode (reset_counters s))) as (_ & _ & _ & T1).
  destruct (for_enumerate_quiet _ (test_batch_quiet c) (test_loader D e) 0
              (set_mode EvalMode (reset_counters s))) as (_ & _ & _ & T2).
  rewrite T1, T2. repeat split.
Qed.

(** C6.  The testing body does what the training body does, without
    the gradient update.  From the same state both compute the same
    forward pass and loss on the merged batch, add the loss to
    [batch_loss] and the accuracy of the concatenated predictions to
    [batch_accuracy], and bind the same batch locals; the training body
    also clears the gradients, backpropagates and takes an optimiser
    step, the testing body leaves the model and the optimiser as they
    are.  So the whole evaluation pass leaves the parameters unchanged,
    and its sums are the losses and accuracies of its batches, added up
    from zero in loader order. *)
Theorem testing_is_training_without_update c D e b s :
  vars (train_batch c b s) = vars (test_batch c b s)
  /\ deepcaps (test_batch c b s) = deepcaps s
  /\ optimizer (test_batch c b s) = optimizer s
  /\ (let loss := fst (forward_batch c (deepcaps s) b) in
      let g := backward loss (zero_grad (grads (deepcaps s))) in
      grads (deepcaps (train_batch c b s)) = g
      /\ (optimizer (train_batch c b s), params (deepcaps (train_batch c b s)))
         = opt_step (optimizer s) (params (deepcaps s)) g)
  /\ params (deepcaps (snd (test_phase c D e s))) = params (deepcaps s)
  /\ grads (deepcaps (snd (test_phase c D e s))) = grads (deepcaps s)
  /\ optimizer (snd (test_phase c D e s)) = optimizer s
  /\ (let loss := fst (forward_batch c (deepcaps s) b) in
      let bv := snd (forward_batch c (deepcaps s) b) in
      let acc := accuracy_calc (ind bv) (labels_con bv) in
      batch_loss (vars (test_batch c b s))
      = s_add (batch_loss (vars s)) (item loss)
      /\ batch_accuracy (vars (test_batch c b s))
         = s_add (batch_accuracy (vars s)) acc
      /\ last_vars (vars (test_batch c b s)) = Some bv
      /\ batch_loss (vars (train_batch c b s))
         = s_add (batch_loss (vars s)) (item loss)
      /\ batch_accuracy (vars (train_batch c b s))
         = s_add (batch_accuracy (vars s)) acc
      /\ last_vars (vars (train_batch c b s)) = Some bv)
  /\ (let d := mkModel EvalMode (params (deepcaps s)) (grads (deepcaps s)) in
      batch_loss (vars (snd (test_phase c D e s)))
      = fold_left s_add
          (map (fun b' => item (fst (forward_batch c d b'))) (test_loader D e))
          s_zero
      /\ batch_accuracy (vars (snd (test_phase c D e s)))
         = fold_left s_add
             (map (fun b' => let bv := snd (forward_batch c d b') in
                             accuracy_calc (ind bv) (labels_con bv))
                  (test_loader D e))
             s_zero).
Proof.
  split; [apply train_batch_vars|].
  split; [reflexivity|]. split; [reflexivity|].
  split.
  { unfold train_batch, forward_batch. cbn.
    destruct (opt_step _ _ _) as [o' p']. split; reflexivity. }
  destruct (test_phase_frame c D e s) as (Hp & Hg & Ho).
  split; [exact Hp|]. split; [exact Hg|]. split; [exact Ho|].
  split.
  { cbn zeta. rewrite !train_batch_vars. repeat split. }
  cbn zeta. rewrite test_phase_run. cbn [snd emit_ev vars].
  unfold after_test_loop.
  destruct (test_loop_sums c (test_loader D e) 0
              (set_mode EvalMode (reset_counters s))) as [H1 H2].
  split; [exact H1 | exact H2].
Qed.

(** C8.  Running the testing pass a second time, from the state the
    first run left, over the same test batches, gives the same testing
    accuracy and loss and the same accumulated sums; the parameters are
    those the first run started with. *)
Theorem evaluation_is_repeatable c D e s :
  let first := test_phase c D e s in
  let second := test_phase c D e (snd first) in
  fst second = fst first
  /\ batch_loss (vars (snd second)) = batch_loss (vars (snd first))
  /\ batch_accuracy (vars (snd second)) = batch_accuracy (vars (snd first))
  /\ params (deepcaps (snd second)) = params (deepcaps s).
Proof.
  intros first second.
  destruct (test_phase_frame c D e s) as (Hp & _).
  destruct (test_phase_params_only c D e (snd first) s Hp) as (H1 & H2 & H3).
  repeat split; try assumption.
  destruct (test_phase_frame c D e (snd first)) as (Hp2 & _).
  unfold second. now rewrite Hp2.
Qed.

(** C7.  When the testing loader of the epoch ends with batch [b], the
    epoch prints exactly one F1 score, and it is computed over the
    predicted indices of the two branches on [b], concatenated, against
    the merged labels of [b]: the last testing batch alone. *)
Theorem f1_over_final_test_batch c D path e s l b :
  test_loader D e = l ++ [b] ->
  let o := forward EvalMode (params (deepcaps (before_test c D e s)))
                   (b_data b) (b_optic b)
                   (onehot_encode (b_labels b) (num_classes c)) in
  exists s' evs,
    epoch c D path e s = (Val tt, s')
    /\ trace s' = trace s ++ evs
    /\ filter is_f1 evs
       = [EvPrintF1 7 (indices o ++ indices1 o) (b_labels b ++ b_labels b)].
Proof.
  intros Hl o.
  pose proof (test_loop_last_vars c D e (before_test c D e s) l b Hl) as Hbv.
  destruct (epoch_run c D path e s _ Hbv)
    as (s' & pevs & Hrun & Htr & Hpevs & _).
  destruct (before_test_frame c D e s) as (Bt & _).
  exists s'. eexists. split; [exact Hrun|].
  split.
  - rewrite Htr, Bt, <- app_assoc. reflexivity.
  - rewrite !filter_app.
    assert (Hp : filter is_f1 pevs = []).
    { rewrite Hpevs. destruct (graphs_folder c); [|reflexivity].
      destruct (Z.of_nat e mod 5 =? 0); reflexivity. }
    rewrite Hp. destruct (s_lt _ _); reflexivity.
Qed.

Lemma fifth_epoch_test e :
  (Z.of_nat e mod 5 =? 0) = (e mod 5 =? 0)%nat.
Proof.
  change 5 with (Z.of_nat 5). rewrite <- Nat2Z.inj_mod.
  destruct (Nat.eqb_spec (e mod 5) 0) as [H|H].
  - rewrite H. reflexivity.
  - apply Z.eqb_neq. lia.
Qed.

(** C9.  When the testing loader of the epoch ends with batch [b]: if a
    graphs folder is configured and the epoch index is a multiple of 5
    (0 included), the epoch emits the loss and accuracy curves over the
    history lists, which already hold this epoch's values, and then the
    reconstruction plot of the merged batch [b] of the testing pass; if no
    graphs folder is configured, or the index is not a multiple of 5, it
    emits no plot. *)
Theorem plots_every_fifth_epoch c D path e s l b :
  test_loader D e = l ++ [b] ->
  let o := forward EvalMode (params (deepcaps (before_test c D e s)))
                   (b_data b) (b_optic b)
                   (onehot_encode (b_labels b) (num_classes c)) in
  exists s' evs,
    epoch c D path e s = (Val tt, s')
    /\ trace s' = trace s ++ evs
    /\ testing_acc_list (hist s')
       = testing_acc_list (hist s) ++ [test_accuracy c D e s]
    /\ (forall folder,
          graphs_folder c = Some folder -> (e mod 5 = 0)%nat ->
          filter is_plot evs
          = [EvPlotLossAcc folder e
               (training_acc_list (hist s')) (training_loss_list (hist s'))
               (testing_acc_list (hist s')) (testing_loss_list (hist s'));
             EvPlotReconstruction folder e
               (b_data b ++ b_optic b)
               (reconstructed o ++ reconstructed1 o)
               (indices o ++ indices1 o)
               (b_labels b ++ b_labels b)])
    /\ (graphs_folder c = None -> filter is_plot evs = [])
    /\ ((e mod 5 <> 0)%nat -> filter is_plot evs = []).
Proof.
  intros Hl o.
  pose proof (test_loop_last_vars c D e (before_test c D e s) l b Hl) as Hbv.
  destruct (epoch_run c D path e s _ Hbv)
    as (s' & pevs & Hrun & Htr & Hpevs & _ & Hacc & _).
  destruct (before_test_frame c D e s) as (Bt & _).
  exists s'. eexists. split; [exact Hrun|].
  split; [rewrite Htr, Bt, <- app_assoc; reflexivity|].
  split; [exact Hacc|].
  assert (Hf : forall evs, filter is_plot
            ([EvPrintBegin e (get_learning_rate (optimizer s));
              EvPrintTrain e (fst (training_averages c D e s))
                             (snd (training_averages c D e s))]
             ++ [EvPrintTest e (test_accuracy c D e s)
                   (s_div (s_div
                      (batch_loss (vars (after_test_loop c D e
                                           (before_test c D e s))))
                      (batch_idx (vars (after_test_loop c D e
                                           (before_test c D e s))) + 1)) 2);
                 EvPrintF1 7
                   (ind (eval_vars c (params (deepcaps (before_test c D e s)))
                                   (grads (deepcaps (before_test c D e s))) b))
                   (labels_con
                      (eval_vars c (params (deepcaps (before_test c D e s)))
                                 (grads (deepcaps (before_test c D e s))) b))]
             ++ evs
             ++ (if s_lt (best_accuracy (vars s)) (test_accuracy c D e s)
                 then [EvSave path e
                         (state_dict (params (deepcaps (before_test c D e s))));
                       EvPrintSaved e]
                 else []))
          = filter is_plot evs).
  { intros evs. rewrite !filter_app. cbn [filter is_plot app].
    destruct (s_lt _ _); cbn [filter is_plot]; now rewrite app_nil_r. }
  rewrite Hf, Hpevs, fifth_epoch_test. clear Hf.
  repeat split.
  - intros folder Hg He. rewrite Hg, He. reflexivity.
  - intros Hg. rewrite Hg. reflexivity.
  - intros He. apply Nat.eqb_neq in He. rewrite He.
    destruct (graphs_folder c); reflexivity.
Qed.

(** C10.  Whatever [num_classes] and the other arguments of [train] are,
    every F1 score the run prints comes from a metric constructed with
    class count 7. *)
Theorem f1_class_count_is_seven c D fs k preds target :
  In (EvPrintF1 k preds target) (trace (snd (train c D fs))) ->
  k = 7.
Proof.
  intros Hin.
  assert (Hall : Forall f1_over_seven (trace (snd (train c D fs)))).
  { apply f1_invariant. constructor. }
  rewrite Forall_forall in Hall. exact (Hall _ Hin).
Qed.

(** ** No division by zero *)

Lemma no_zero_division_bind {A C} (m : M A) (k : A -> M C) :
  no_zero_division m -> (forall a, no_zero_division (k a)) ->
  no_zero_division (bind m k).
Proof.
  intros Hm Hk s. unfold bind. specialize (Hm s).
  destruct (m s) as [[a|e] s1]; cbn [fst] in *.
  - apply Hk.
  - intros Heq. apply Hm. injection Heq as ->. reflexivity.
Qed.

Lemma no_zero_division_total {A} (m : M A) :
  (forall s, exists a s', m s = (Val a, s')) -> no_zero_division m.
Proof. intros H s. destruct (H s) as (a & s' & ->). discriminate. Qed.

Ltac no_zero_division_step :=
  match goal with
  | |- no_zero_division (bind _ _) =>
      apply no_zero_division_bind; [|intros ?]
  | |- no_zero_division (if ?b then _ else _) => destruct b
  | |- no_zero_division (match ?o with _ => _ end) => destruct o
  | |- no_zero_division (train_phase _ _ _) =>
      apply no_zero_division_total; intros ?;
      rewrite train_phase_run; eauto
  | |- no_zero_division (test_phase _ _ _) =>
      apply no_zero_division_total; intros ?;
      rewrite test_phase_run; eauto
  | |- no_zero_division _ => intros ?; discriminate
  end.

Lemma epoch_no_zero_division c D path e :
  no_zero_division (epoch c D path e).
Proof.
  unfold epoch, report_f1, plots, checkpoint, read_batch_vars, emit.
  repeat no_zero_division_step.
Qed.

Lemma for_range_no_zero_division (body : nat -> M unit) idxs :
  (forall i, no_zero_division (body i)) ->
  no_zero_division (for_range body idxs).
Proof.
  intros Hb. induction idxs as [|i rest IH]; cbn [for_range].
  - intros s. discriminate.
  - apply no_zero_division_bind; [apply Hb | intros _; exact IH].
Qed.

Lemma train_body_no_zero_division c D : no_zero_division (train_body c D).
Proof.
  unfold train_body, checkpoint_path_of, restore, emit.
  repeat (apply no_zero_division_bind; [|intros ?]).
  all: try (apply for_range_no_zero_division; intros e;
            apply epoch_no_zero_division).
  all: repeat no_zero_division_step.
Qed.

(** C2, as the code has it.  [batch_idx] is 0 before each loop, so the
    divisor [batch_idx + 1] of the finalization is 1 when the loader
    yields no batch: the averages of that pass are the zero sums divided
    by 1 (the testing loss divided by 2 once more), and no run of [train]
    raises [ZeroDivisionError], whatever the loaders yield. *)
Theorem finalization_never_divides_by_zero c D e s fs :
  (train_loader D e = [] ->
     fst (train_phase c D e s) = Val (s_div s_zero 1, s_div s_zero 1))
  /\ (test_loader D e = [] ->
       fst (test_phase c D e s)
       = Val (s_div s_zero 1, s_div (s_div s_zero 1) 2))
  /\ fst (train_phase c D e s) <> Exc ZeroDivisionError
  /\ fst (test_phase c D e s) <> Exc ZeroDivisionError
  /\ fst (train c D fs) <> Exc ZeroDivisionError.
Proof.
  rewrite train_phase_run, test_phase_run. cbn [fst].
  unfold after_train_loop, after_test_loop.
  repeat split; try discriminate.
  - intros ->. reflexivity.
  - intros ->. reflexivity.
  - apply train_body_no_zero_division.
Qed.

(** C3, as the code has it.  When [load_checkpoint] is set, the
    checkpoint file exists and restoring it raises, the error is printed
    and [sys.exit()] ends the run at once: the exit status is 0, nothing
    is trained, printed or saved after the error. *)
Theorem restore_failure_exits c D fs folder name blob err :
  load_checkpoint c = true ->
  checkpoint_folder c = Some folder ->
  checkpoint_name c = Some name ->
  fs (folder ++ name)%string = Some blob ->
  load_state_dict blob (init_model (num_classes c) (img_size c)) = inl err ->
  fst (train c D fs) = Exc (SystemExit None)
  /\ exit_status (SystemExit None) = 0
  /\ trace (snd (train c D fs))
     = [EvPrintModel (init_model (num_classes c) (img_size c));
        EvPrintExn err]
  /\ files (snd (train c D fs)) = fs
  /\ hist (snd (train c D fs)) = mkHistory [] [] [] []
  /\ params (deepcaps (snd (train c D fs)))
     = init_model (num_classes c) (img_size c).
Proof.
  intros Hload Hfolder Hname Hfile Herr.
  unfold train, train_body, checkpoint_path_of, restore.
  rewrite Hfolder, Hname, Hload.
  unfold bind, get, emit, modify, ret, raise. cbn.
  rewrite Hfile. cbn. rewrite Herr. cbn. repeat split.
Qed.

End Facts.

(** * Concrete runs *)

Local Open Scope string_scope.
Local Open Scope list_scope.

(** C1.  The code does not do what the claim says: [best_accuracy] stays
    0 for the whole run, so every epoch with a positive testing accuracy
    saves.  In the first run the testing accuracy is 1 in epoch 0 and 1/2
    in epoch 1, and the checkpoint of epoch 0 is overwritten by the
    parameters of epoch 1; in the second run the testing accuracy is 1/2
    in both epochs, and the tie saves again. *)
Theorem checkpoint_overwritten_by_worse_epoch :
  let r := train Toy.cfg Toy.loaders Toy.no_files in
  let t := train Toy.cfg Toy.loaders_no_train Toy.no_files in
  fst r = Val tt
  /\ testing_acc_list (hist (snd r)) = [1%Q; (1 # 2)%Q]
  /\ filter is_save (trace (snd r))
     = [@EvSave Toy.toy "ckpt/best.pt" 0%nat (Some 1);
        @EvSave Toy.toy "ckpt/best.pt" 1%nat (Some 2)]
  /\ files (snd r) "ckpt/best.pt" = Some (Some 2)
  /\ best_accuracy (vars (snd r)) = 0%Q
  /\ testing_acc_list (hist (snd t)) = [(1 # 2)%Q; (1 # 2)%Q]
  /\ filter is_save (trace (snd t))
     = [@EvSave Toy.toy "ckpt/best.pt" 0%nat (Some 0);
        @EvSave Toy.toy "ckpt/best.pt" 1%nat (Some 0)].
Proof. vm_compute. repeat split. Qed.

(** C2 fails as stated: a loader without batches does not make the
    finalization divide by zero.  The pass over the empty loader reports
    accuracy 0 and loss 0, and the run finishes. *)
Lemma empty_loader_divides_by_one :
  train_loader Toy.loaders_no_train 0 = []
  /\ fst (train_phase Toy.cfg Toy.loaders_no_train 0
            (start Toy.cfg Toy.no_files)) = Val (0%Q, 0%Q)
  /\ test_loader Toy.loaders_no_test 0 = []
  /\ fst (test_phase Toy.cfg Toy.loaders_no_test 0
            (start Toy.cfg Toy.no_files)) = Val (0%Q, 0%Q)
  /\ fst (train Toy.cfg Toy.loaders_no_train Toy.no_files) = Val tt
  /\ fst (train Toy.cfg Toy.loaders_no_test Toy.no_files) = Val tt.
Proof. vm_compute. repeat split. Qed.

Lemma finalization_never_divides_by_zero_witness :
  train_loader Toy.loaders_no_train 0 = []
  /\ fst (train_phase Toy.cfg Toy.loaders_no_train 0
            (start Toy.cfg Toy.no_files)) = Val (0%Q, 0%Q).
Proof.
  split; [reflexivity|].
  exact (proj1 (finalization_never_divides_by_zero
                  Toy.cfg Toy.loaders_no_train 0
                  (start Toy.cfg Toy.no_files) Toy.no_files) eq_refl).
Defined.

(** C3 fails as stated: the exit status after a failed restore is 0, not
    a non-zero one. *)
Lemma corrupt_checkpoint_exit_status_zero :
  load_checkpoint Toy.cfg_restore = true
  /\ Toy.corrupt_files "ckpt/best.pt" = Some None
  /\ @load_state_dict Toy.toy None 0 = inl "corrupt checkpoint"
  /\ exists e,
       fst (train Toy.cfg_restore Toy.loaders Toy.corrupt_files) = Exc e
       /\ exit_status e = 0.
Proof.
  repeat split. exists (SystemExit None). split; reflexivity.
Qed.

Lemma restore_failure_exits_witness :
  load_checkpoint Toy.cfg_restore = true
  /\ Toy.corrupt_files "ckpt/best.pt" = Some None
  /\ fst (train Toy.cfg_restore Toy.loaders Toy.corrupt_files)
     = Exc (SystemExit None)
  /\ trace (snd (train Toy.cfg_restore Toy.loaders Toy.corrupt_files))
     = [@EvPrintModel Toy.toy 0; @EvPrintExn Toy.toy "corrupt checkpoint"].
Proof.
  split; [reflexivity|]. split; [reflexivity|].
  destruct (restore_failure_exits Toy.cfg_restore Toy.loaders
              Toy.corrupt_files "ckpt/" "best.pt" None "corrupt checkpoint"
              eq_refl eq_refl eq_refl eq_refl eq_refl)
    as (H1 & _ & H2 & _).
  split; [exact H1 | exact H2].
Defined.

Lemma merged_batch_layout_witness :
  List.length (b_data Toy.batch01) = 2%nat
  /\ List.length
       (data_con (snd (forward_batch Toy.cfg (@mkModel Toy.toy EvalMode 0 0)
                                     Toy.batch01))) = 4%nat
  /\ labels_con (snd (forward_batch Toy.cfg (@mkModel Toy.toy EvalMode 0 0)
                                    Toy.batch01)) = [0; 1; 0; 1].
Proof.
  split; [reflexivity|].
  destruct (merged_batch_layout Toy.cfg (@mkModel Toy.toy EvalMode 0 0) Toy.batch01 2
              eq_refl eq_refl eq_refl) as (H1 & _ & H2 & _).
  split; [exact H1 | exact H2].
Defined.

Lemma test_loss_is_halved_witness :
  train_loader Toy.loaders 0 <> []
  /\ test_loader Toy.loaders 0 <> []
  /\ fst (train_phase Toy.cfg Toy.loaders 0 (start Toy.cfg Toy.no_files))
     = Val ((1 # 2)%Q, 4%Q)
  /\ fst (test_phase Toy.cfg Toy.loaders 0 (start Toy.cfg Toy.no_files))
     = Val ((1 # 2)%Q, 2%Q).
Proof.
  assert (Htr : train_loader Toy.loaders 0 <> []) by discriminate.
  assert (Hte : test_loader Toy.loaders 0 <> []) by discriminate.
  split; [exact Htr|]. split; [exact Hte|].
  destruct (test_loss_is_halved Toy.cfg Toy.loaders 0
              (start Toy.cfg Toy.no_files) Htr Hte) as (H1 & H2 & _).
  split; [exact H1 | exact H2].
Defined.

Lemma f1_over_final_test_batch_witness :
  test_loader Toy.loaders 0 = [] ++ [Toy.batch01]
  /\ exists s' evs,
       epoch Toy.cfg Toy.loaders "ckpt/best.pt" 0 (start Toy.cfg Toy.no_files)
       = (Val tt, s')
       /\ trace s' = trace (start Toy.cfg Toy.no_files) ++ evs
       /\ filter is_f1 evs = [@EvPrintF1 Toy.toy 7 [0; 1; 0; 1] [0; 1; 0; 1]].
Proof.
  split; [reflexivity|].
  exact (f1_over_final_test_batch Toy.cfg Toy.loaders "ckpt/best.pt" 0
           (start Toy.cfg Toy.no_files) [] Toy.batch01 eq_refl).
Defined.

Lemma plots_every_fifth_epoch_witness :
  test_loader Toy.loaders 0 = [] ++ [Toy.batch01]
  /\ exists s' evs,
       epoch Toy.cfg Toy.loaders "ckpt/best.pt" 0 (start Toy.cfg Toy.no_files)
       = (Val tt, s')
       /\ trace s' = trace (start Toy.cfg Toy.no_files) ++ evs
       /\ filter is_plot evs
          = [@EvPlotLossAcc Toy.toy "graphs/" 0
               (training_acc_list (hist s')) (training_loss_list (hist s'))
               (testing_acc_list (hist s')) (testing_loss_list (hist s'));
             @EvPlotReconstruction Toy.toy "graphs/" 0
               [0; 1; 0; 1] [0; 1; 0; 1] [0; 1; 0; 1] [0; 1; 0; 1]].
Proof.
  split; [reflexivity|].
  destruct (plots_every_fifth_epoch Toy.cfg Toy.loaders "ckpt/best.pt" 0
              (start Toy.cfg Toy.no_files) [] Toy.batch01 eq_refl)
    as (s' & evs & H1 & H2 & _ & H3 & _).
  exists s', evs. split; [exact H1|]. split; [exact H2|].
  exact (H3 "graphs/" eq_refl eq_refl).
Defined.

Lemma f1_class_count_is_seven_witness :
  num_classes Toy.cfg = 2
  /\ In (@EvPrintF1 Toy.toy 7 [0; 1; 0; 1] [0; 1; 0; 1])
        (trace (snd (train Toy.cfg Toy.loaders Toy.no_files)))
  /\ 7 = 7.
Proof.
  split; [reflexivity|].
  assert (Hin : In (@EvPrintF1 Toy.toy 7 [0; 1; 0; 1] [0; 1; 0; 1])
                   (trace (snd (train Toy.cfg Toy.loaders Toy.no_files)))).
  { vm_compute. do 4 right. left. reflexivity. }
  split; [exact Hin|].
  exact (f1_class_count_is_seven Toy.cfg Toy.loaders Toy.no_files
           7 [0; 1; 0; 1] [0; 1; 0; 1] Hin).
Defined.

(** * Whole epochs and whole runs *)

Section RunFacts.

Context {B : Backend}.

(** ** The epoch in closed form *)

Lemma before_test_unfold c D e s :
  before_test c D e s
  = set_hist (fun h =>
                mkHistory
                  (training_loss_list h ++ [snd (training_averages c D e s)])
                  (training_acc_list h ++ [fst (training_averages c D e s)])
                  (testing_loss_list h) (testing_acc_list h))
      (emit_ev (EvPrintTrain e (fst (training_averages c D e s))
                               (snd (training_averages c D e s)))
         (after_train_loop c D e
            (emit_ev (EvPrintBegin e (get_learning_rate (optimizer s))) s))).
Proof. unfold before_test. rewrite train_phase_run. reflexivity. Qed.

Lemma epoch_enters_test c D path e s :
  epoch c D path e s
  = bind (test_phase c D e)
         (fun r => bind (report_f1 (fst r) (snd r))
                        (fun _ => bind (plots c e)
                                       (fun _ => checkpoint path e (fst r))))
         (before_test c D e s).
Proof.
  unfold epoch, bind at 1 2 3, get, emit, modify. cbn beta iota.
  unfold before_test.
  destruct (train_phase c D e _) as [r s2] eqn:Htr.
  rewrite train_phase_run in Htr. injection Htr as <- <-.
  reflexivity.
Qed.

Lemma epoch_unfold c D path e s bv :
  last_vars (vars (after_test_loop c D e (before_test c D e s))) = Some bv ->
  epoch c D path e s
  = (Val tt,
     epoch_end c path e (after_test_loop c D e (before_test c D e s)) bv).
Proof.
  intros Hbv. rewrite epoch_enters_test.
  set (s3 := after_test_loop c D e (before_test c D e s)) in *.
  unfold bind at 1. rewrite test_phase_run. fold s3. cbn [fst snd].
  unfold bind at 1. erewrite report_f1_run by exact Hbv.
  unfold bind.
  match goal with
  | |- context [plots c e ?s5] =>
      destruct (plots_run c e s5 bv Hbv) as (pevs & Hpl & Hpevs)
  end.
  rewrite Hpl, checkpoint_run. f_equal.
  unfold epoch_end. cbn -[s_lt plot_events app].
  cbn in Hpevs. fold (plot_events c e
    (mkHistory (training_loss_list (hist s3)) (training_acc_list (hist s3))
       (testing_loss_list (hist s3) ++
        [s_div (s_div (batch_loss (vars s3)) (batch_idx (vars s3) + 1)) 2])
       (testing_acc_list (hist s3) ++
        [s_div (batch_accuracy (vars s3)) (batch_idx (vars s3) + 1)])) bv)
    in Hpevs.
  rewrite Hpevs, <- !app_assoc. reflexivity.
Qed.

Lemma epoch_unbound c D path e s :
  let s3 := after_test_loop c D e (before_test c D e s) in
  last_vars (vars s3) = None ->
  epoch c D path e s
  = (Exc (UnboundLocalError "ind"),
     emit_ev (EvPrintTest e (test_accuracy c D e s)
                (s_div (s_div (batch_loss (vars s3))
                              (batch_idx (vars s3) + 1)) 2))
             s3).
Proof.
  intros s3 Hnone. rewrite epoch_enters_test.
  unfold bind at 1. rewrite test_phase_run. fold s3. cbn [fst snd].
  unfold bind at 1, report_f1, bind at 1, read_batch_vars, bind at 1, get.
  cbn beta iota. cbn [emit_ev vars]. rewrite Hnone. reflexivity.
Qed.

(** ** When the batch variables are bound *)

Lemma train_batch_binds c : binds (train_batch c).
Proof. intros b s. rewrite train_batch_vars. discriminate. Qed.

Lemma test_batch_binds c : binds (test_batch c).
Proof. intros b s. discriminate. Qed.

Lemma for_enumerate_nil_vars body i s :
  for_enumerate body i [] s = s.
Proof. reflexivity. Qed.

Lemma for_enumerate_binds body (Hb : binds body) l b i s :
  last_vars (vars (for_enumerate body i (l ++ [b]) s)) <> None.
Proof. rewrite for_enumerate_snoc. apply Hb. Qed.

Lemma nonempty_snoc {A} (l : list A) :
  l <> [] -> exists l' x, l = l' ++ [x].
Proof.
  intros H. destruct (exists_last H) as (l' & x & ->). now exists l', x.
Qed.

Lemma for_enumerate_keeps_bound body (Hb : binds body) l i s :
  last_vars (vars s) <> None \/ l <> [] ->
  last_vars (vars (for_enumerate body i l s)) <> None.
Proof.
  intros [H|H].
  - destruct l as [|a l]; [exact H|].
    destruct (nonempty_snoc (a :: l)) as (l' & x & ->); [discriminate|].
    now apply for_enumerate_binds.
  - destruct (nonempty_snoc l H) as (l' & x & ->).
    now apply for_enumerate_binds.
Qed.

Lemma before_test_last_vars c D e s :
  last_vars (vars (before_test c D e s))
  = last_vars (vars (after_train_loop c D e
       (emit_ev (EvPrintBegin e (get_learning_rate (optimizer s))) s))).
Proof. rewrite before_test_unfold. reflexivity. Qed.

(** The batch variables are bound after the testing loop of an epoch as
    soon as they were bound before the epoch or one of its loaders yields
    a batch. *)
Lemma epoch_binds c D e s :
  last_vars (vars s) <> None
  \/ train_loader D e <> [] \/ test_loader D e <> [] ->
  last_vars (vars (after_test_loop c D e (before_test c D e s))) <> None.
Proof.
  intros H. unfold after_test_loop.
  apply for_enumerate_keeps_bound; [apply test_batch_binds|].
  destruct H as [H|[H|H]]; [left|left|right; exact H].
  - cbn [set_mode set_deepcaps reset_counters set_vars vars last_vars].
    rewrite before_test_last_vars. unfold after_train_loop.
    apply for_enumerate_keeps_bound; [apply train_batch_binds|].
    left. exact H.
  - cbn [set_mode set_deepcaps reset_counters set_vars vars last_vars].
    rewrite before_test_last_vars. unfold after_train_loop.
    apply for_enumerate_keeps_bound; [apply train_batch_binds|].
    right. exact H.
Qed.

(** They are unbound after it when they were unbound before the epoch
    and neither loader yields a batch. *)
Lemma epoch_leaves_unbound c D e s :
  last_vars (vars s) = None ->
  train_loader D e = [] -> test_loader D e = [] ->
  last_vars (vars (after_test_loop c D e (before_test c D e s))) = None.
Proof.
  intros Hs Htr Hte. unfold after_test_loop. rewrite Hte.
  cbn [for_enumerate set_mode set_deepcaps reset_counters set_vars vars
       last_vars].
  rewrite before_test_last_vars. unfold after_train_loop. rewrite Htr.
  exact Hs.
Qed.

Lemma epoch_end_vars c path e s3 bv :
  vars (epoch_end c path e s3 bv) = vars s3.
Proof. unfold epoch_end. cbn zeta. destruct (s_lt _ _); reflexivity. Qed.

(** An epoch either ends normally, with the batch variables bound, or
    raises [UnboundLocalError] for [ind]. *)
Lemma epoch_cases c D path e s :
  (exists bv,
      last_vars (vars (after_test_loop c D e (before_test c D e s))) = Some bv
      /\ epoch c D path e s
         = (Val tt, epoch_end c path e
                      (after_test_loop c D e (before_test c D e s)) bv))
  \/ (last_vars (vars (after_test_loop c D e (before_test c D e s))) = None
      /\ fst (epoch c D path e s) = Exc (UnboundLocalError "ind")).
Proof.
  destruct (last_vars (vars (after_test_loop c D e (before_test c D e s))))
    as [bv|] eqn:Hbv.
  - left. exists bv. split; [reflexivity|]. now apply epoch_unfold.
  - right. split; [reflexivity|]. now rewrite epoch_unbound.
Qed.

(** ** The run in closed form *)

Lemma train_unfold c D fs folder name :
  checkpoint_folder c = Some folder ->
  checkpoint_name c = Some name ->
  train c D fs
  = bind (restore c (folder ++ name)%string)
         (fun _ => for_range (epoch c D (folder ++ name)%string)
                             (seq 0 (Z.to_nat (num_epochs c))))
         (fresh_state c fs).
Proof.
  intros Hf Hn. unfold train, train_body, checkpoint_path_of.
  rewrite Hf, Hn. reflexivity.
Qed.

Lemma restore_skipped c path s :
  load_checkpoint c = false \/ files s path = None ->
  restore c path s = (Val tt, s).
Proof.
  intros H. unfold restore, bind, get. cbn beta iota.
  destruct H as [-> | ->]; [reflexivity|].
  now rewrite andb_false_r.
Qed.

Lemma restore_loaded c path s name blob p :
  load_checkpoint c = true ->
  checkpoint_name c = Some name ->
  files s path = Some blob ->
  load_state_dict blob (params (deepcaps s)) = inr p ->
  restore c path s
  = (Val tt, emit_ev EvPrintLoaded
               (set_deepcaps (fun d => mkModel (mode d) p (grads d)) s)).
Proof.
  intros Hl Hn Hf Hp. unfold restore, bind, get. cbn beta iota.
  rewrite Hl, Hn, Hf. cbn [is_some andb]. rewrite Hp. reflexivity.
Qed.

Lemma restore_raises c path :
  raises_within (fun e => e = SystemExit None /\ load_checkpoint c = true)
                (restore c path).
Proof.
  intros s e. unfold restore, bind, get. cbn beta iota.
  destruct (load_checkpoint c); [|discriminate].
  destruct (is_some (checkpoint_name c)); [|discriminate].
  cbn [andb]. destruct (files s path) as [blob|]; [|discriminate].
  cbn [is_some]. destruct (load_state_dict _ _); [|discriminate].
  unfold emit, modify, raise. cbn. intros H. injection H as <-. now split.
Qed.

Lemma for_range_raises c D path idxs :
  raises_within unbound_ind (for_range (epoch c D path) idxs).
Proof.
  induction idxs as [|i rest IH]; intros s e; cbn [for_range].
  - discriminate.
  - unfold bind. destruct (epoch_cases c D path i s)
      as [(bv & _ & ->) | (_ & Hexc)].
    + apply IH.
    + destruct (epoch c D path i s) as [[[]|e'] s']; cbn [fst] in *.
      * discriminate.
      * intros H. injection H as <-. injection Hexc as ->. reflexivity.
Qed.

(** Once the batch variables are bound, every further epoch ends
    normally. *)
Lemma for_range_completes c D path idxs : forall s,
  last_vars (vars s) <> None ->
  exists s', for_range (epoch c D path) idxs s = (Val tt, s')
             /\ last_vars (vars s') <> None.
Proof.
  induction idxs as [|i rest IH]; intros s Hs; cbn [for_range].
  - exists s. split; [reflexivity | exact Hs].
  - pose proof (epoch_binds c D i s (or_introl Hs)) as Hb.
    destruct (epoch_cases c D path i s) as [(bv & Hbv & Hrun) | (Hn & _)];
      [|contradiction].
    unfold bind. rewrite Hrun. apply IH.
    rewrite epoch_end_vars, Hbv. discriminate.
Qed.

(** What lines 38-44 do to the state in which the model was printed. *)
Lemma restore_cases c fs path :
  let s := fresh_state c fs in
  let p0 := init_model (num_classes c) (img_size c) in
  (restore c path s = (Val tt, s)
   /\ (load_checkpoint c = false \/ checkpoint_name c = None
       \/ fs path = None))
  \/ (exists blob p,
        restore c path s = (Val tt, loaded_state c fs p)
        /\ load_checkpoint c = true /\ fs path = Some blob
        /\ load_state_dict blob p0 = inr p)
  \/ (exists blob err,
        restore c path s
        = (Exc (SystemExit None), emit_ev (EvPrintExn err) s)
        /\ load_checkpoint c = true /\ fs path = Some blob
        /\ load_state_dict blob p0 = inl err).
Proof.
  intros s p0. unfold restore, bind, get. cbn beta iota.
  change (files s path) with (fs path).
  change (params (deepcaps s)) with p0.
  destruct (load_checkpoint c); [|left; split; [reflexivity | now left]].
  destruct (checkpoint_name c);
    [|left; split; [reflexivity | right; now left]].
  cbn [is_some andb].
  destruct (fs path) as [blob|];
    [|left; split; [reflexivity | right; now right]].
  cbn [is_some]. destruct (load_state_dict blob p0) as [err|p] eqn:Hl.
  - right. right. exists blob, err. repeat split; assumption.
  - right. left. exists blob, p. repeat split; assumption.
Qed.

(** ** Properties of whole runs *)

(** X1.  Without a checkpoint folder or without a checkpoint name (the
    defaults of [train]), line 33 raises [TypeError] before anything is
    printed, trained or written. *)
Theorem train_needs_checkpoint_path c D fs :
  checkpoint_folder c = None \/ checkpoint_name c = None ->
  fst (train c D fs) = Exc TypeError
  /\ trace (snd (train c D fs)) = []
  /\ files (snd (train c D fs)) = fs.
Proof.
  intros H. unfold train, train_body, checkpoint_path_of, bind.
  destruct H as [-> | ->]; [|destruct (checkpoint_folder c)];
    repeat split.
Qed.

Lemma train_exceptions c D fs e :
  fst (train c D fs) = Exc e ->
  e = TypeError
  \/ (e = SystemExit None /\ load_checkpoint c = true)
  \/ e = UnboundLocalError "ind".
Proof.
  destruct (checkpoint_folder c) as [folder|] eqn:Hf.
  2:{ unfold train, train_body, checkpoint_path_of, bind. rewrite Hf.
      intros H. injection H as <-. now left. }
  destruct (checkpoint_name c) as [name|] eqn:Hn.
  2:{ unfold train, train_body, checkpoint_path_of, bind. rewrite Hf, Hn.
      intros H. injection H as <-. now left. }
  rewrite (train_unfold c D fs folder name Hf Hn). unfold bind.
  destruct (restore c (folder ++ name)%string (fresh_state c fs))
    as [[[]|e'] s'] eqn:Hr.
  - intros H. right. right. exact (for_range_raises _ _ _ _ _ _ H).
  - cbn [fst]. intros H. injection H as <-. right. left.
    apply (restore_raises c (folder ++ name)%string (fresh_state c fs)).
    now rewrite Hr.
Qed.


Lemma restore_passes c fs path :
  (forall blob, load_checkpoint c = true -> fs path = Some blob ->
     exists p, load_state_dict blob (init_model (num_classes c) (img_size c))
               = inr p) ->
  exists s, restore c path (fresh_state c fs) = (Val tt, s)
            /\ last_vars (vars s) = None
            /\ files s = fs
            /\ hist s = mkHistory [] [] [] []
            /\ filter is_save (trace s) = [].
Proof.
  intros H.
  destruct (restore_cases c fs path)
    as [(Hr & _) | [(blob & p & Hr & _) | (blob & err & _ & Hl & Hf & He)]].
  - eexists. split; [exact Hr|]. repeat split.
  - eexists. split; [exact Hr|]. repeat split.
  - destruct (H blob Hl Hf) as (p & Hp). rewrite Hp in He. discriminate.
Qed.

(** Once the first epoch yields a batch, the epochs all end normally. *)
Lemma epochs_from_first_batch c D path n s :
  n = 0%nat \/ train_loader D 0 <> [] \/ test_loader D 0 <> [] ->
  fst (for_range (epoch c D path) (seq 0 n) s) = Val tt.
Proof.
  intros Hfirst. destruct n as [|k]; [reflexivity|].
  destruct Hfirst as [Hz | Hbatch]; [discriminate|].
  cbn [seq for_range]. unfold bind.
  pose proof (epoch_binds c D 0 s (or_intror Hbatch)) as Hb.
  destruct (epoch_cases c D path 0%nat s)
    as [(bv & Hbv & ->) | (Hnone & _)]; [|contradiction].
  destruct (for_range_completes c D path (seq 1 k)
              (epoch_end c path 0
                 (after_test_loop c D 0 (before_test c D 0 s)) bv))
    as (s' & -> & _); [|reflexivity].
  rewrite epoch_end_vars, Hbv. discriminate.
Qed.

(** X3.  When one of the loaders yields a batch in epoch 0 (or there is
    no epoch to run), no read of [ind], [labels_con], [data_con] or
    [recon] finds the variable unbound: the run never raises
    [UnboundLocalError], in any epoch, whatever the loaders yield later. *)
Theorem batch_variables_stay_bound c D fs name :
  num_epochs c <= 0 \/ train_loader D 0 <> [] \/ test_loader D 0 <> [] ->
  fst (train c D fs) <> Exc (UnboundLocalError name).
Proof.
  intros Hfirst.
  destruct (checkpoint_folder c) as [folder|] eqn:Hf.
  2:{ unfold train, train_body, checkpoint_path_of, bind. rewrite Hf.
      discriminate. }
  destruct (checkpoint_name c) as [nm|] eqn:Hn.
  2:{ unfold train, train_body, checkpoint_path_of, bind. rewrite Hf, Hn.
      discriminate. }
  rewrite (train_unfold c D fs folder nm Hf Hn). unfold bind.
  assert (Hn0 : Z.to_nat (num_epochs c) = 0%nat
                \/ train_loader D 0 <> [] \/ test_loader D 0 <> []).
  { destruct Hfirst as [Hz | Hb]; [left; lia | right; exact Hb]. }
  destruct (restore_cases c fs (folder ++ nm)%string)
    as [(-> & _) | [(blob & p & -> & _) | (blob & err & -> & _)]].
  - rewrite epochs_from_first_batch by exact Hn0. discriminate.
  - rewrite epochs_from_first_batch by exact Hn0. discriminate.
  - discriminate.
Qed.

(** X4.  With a checkpoint path, a restore that does not fail, at least
    one epoch, and no batch in either loader in epoch 0, [train] raises
    [UnboundLocalError] for [ind] at the F1 line of epoch 0: the training
    averages of that epoch are already in the history, the testing ones
    are not, and nothing was saved. *)
Theorem empty_loaders_raise_unbound_local c D fs folder name :
  checkpoint_folder c = Some folder ->
  checkpoint_name c = Some name ->
  (forall blob, load_checkpoint c = true ->
     fs (folder ++ name)%string = Some blob ->
     exists p, load_state_dict blob (init_model (num_classes c) (img_size c))
               = inr p) ->
  0 < num_epochs c ->
  train_loader D 0 = [] ->
  test_loader D 0 = [] ->
  fst (train c D fs) = Exc (UnboundLocalError "ind")
  /\ training_acc_list (hist (snd (train c D fs))) = [s_div s_zero 1]
  /\ training_loss_list (hist (snd (train c D fs))) = [s_div s_zero 1]
  /\ testing_acc_list (hist (snd (train c D fs))) = []
  /\ testing_loss_list (hist (snd (train c D fs))) = []
  /\ filter is_save (trace (snd (train c D fs))) = []
  /\ files (snd (train c D fs)) = fs.
Proof.
  intros Hf Hn Hrestore Hpos Htr Hte.
  rewrite (train_unfold c D fs folder name Hf Hn). unfold bind.
  destruct (restore_passes c fs _ Hrestore) as (s & -> & Hs & Hfs & Hh & Hsv).
  destruct (Z.to_nat (num_epochs c)) as [|k] eqn:Hk; [lia|].
  cbn [seq for_range]. unfold bind.
  rewrite epoch_unbound by (now apply epoch_leaves_unbound).
  cbn [fst snd emit_ev hist trace files].
  unfold after_test_loop. rewrite Hte. cbn [for_enumerate].
  cbn [set_mode set_deepcaps reset_counters set_vars hist trace files].
  rewrite before_test_unfold. unfold training_averages, after_train_loop.
  rewrite Htr. cbn [for_enumerate].
  cbn. rewrite Hh, Hfs, !filter_app, Hsv. cbn. repeat split.
Qed.

(** X5.  With a checkpoint path, no restore and no epoch to run, [train]
    prints the model and returns: nothing else is printed, plotted or
    written. *)
Theorem no_epoch_run c D fs folder name :
  checkpoint_folder c = Some folder ->
  checkpoint_name c = Some name ->
  load_checkpoint c = false ->
  num_epochs c <= 0 ->
  train c D fs = (Val tt, fresh_state c fs).
Proof.
  intros Hf Hn Hl Hz.
  rewrite (train_unfold c D fs folder name Hf Hn). unfold bind.
  rewrite restore_skipped by (now left).
  replace (Z.to_nat (num_epochs c)) with 0%nat by lia. reflexivity.
Qed.

(** X6.  When [load_checkpoint] is set, the file exists and loads, the
    epochs run from the loaded parameters; the model that line 36 printed
    is the freshly initialised one. *)
Theorem restored_run_starts_from_checkpoint c D fs folder name blob p :
  load_checkpoint c = true ->
  checkpoint_folder c = Some folder ->
  checkpoint_name c = Some name ->
  fs (folder ++ name)%string = Some blob ->
  load_state_dict blob (init_model (num_classes c) (img_size c)) = inr p ->
  train c D fs
  = for_range (epoch c D (folder ++ name)%string)
              (seq 0 (Z.to_nat (num_epochs c))) (loaded_state c fs p)
  /\ params (deepcaps (loaded_state c fs p)) = p
  /\ trace (loaded_state c fs p)
     = [EvPrintModel (init_model (num_classes c) (img_size c));
        EvPrintLoaded].
Proof.
  intros Hl Hf Hn Hfile Hp.
  rewrite (train_unfold c D fs folder name Hf Hn). unfold bind.
  rewrite (restore_loaded c _ (fresh_state c fs) name blob p Hl Hn Hfile Hp).
  repeat split.
Qed.

Lemma train_without_restore c D fs folder name :
  checkpoint_folder c = Some folder ->
  checkpoint_name c = Some name ->
  load_checkpoint c = false \/ fs (folder ++ name)%string = None ->
  train c D fs
  = for_range (epoch c D (folder ++ name)%string)
              (seq 0 (Z.to_nat (num_epochs c))) (fresh_state c fs).
Proof.
  intros Hf Hn H.
  rewrite (train_unfold c D fs folder name Hf Hn). unfold bind.
  now rewrite restore_skipped.
Qed.

(** X7.  Asking to load a checkpoint when no file is at the checkpoint
    path is silently the same as not asking: the run is the one with
    [load_checkpoint=False], from the freshly initialised model, and no
    error is reported. *)
Theorem missing_checkpoint_is_ignored c D fs folder name :
  checkpoint_folder c = Some folder ->
  checkpoint_name c = Some name ->
  fs (folder ++ name)%string = None ->
  train c D fs = train (without_restore c) D fs.
Proof.
  intros Hf Hn Hnone.
  rewrite (train_without_restore c D fs folder name Hf Hn (or_intror Hnone)).
  rewrite (train_without_restore (without_restore c) D fs folder name Hf Hn
             (or_introl eq_refl)).
  reflexivity.
Qed.

(** ** The state an epoch leaves *)

Lemma filter_plot_events (f : Event -> bool) c e h bv :
  (forall ev, is_plot ev = true -> f ev = false) ->
  filter f (plot_events c e h bv) = [].
Proof.
  intros Hf. unfold plot_events. destruct (graphs_folder c); [|reflexivity].
  destruct (Z.of_nat e mod 5 =? 0)%Z; [|reflexivity].
  cbn [filter]. now rewrite !Hf.
Qed.

Lemma before_test_hist c D e s :
  hist (before_test c D e s)
  = mkHistory
      (training_loss_list (hist s) ++ [snd (training_averages c D e s)])
      (training_acc_list (hist s) ++ [fst (training_averages c D e s)])
      (testing_loss_list (hist s)) (testing_acc_list (hist s)).
Proof.
  rewrite before_test_unfold. cbn [set_hist emit_ev hist].
  unfold after_train_loop.
  match goal with
  | |- context [for_enumerate ?b ?i ?l ?s0] =>
      destruct (for_enumerate_quiet b (train_batch_quiet c) l i s0)
        as (_ & H & _)
  end.
  rewrite H. reflexivity.
Qed.

Lemma epoch_end_hist c D path e s bv :
  let s3 := after_test_loop c D e (before_test c D e s) in
  hist (epoch_end c path e s3 bv)
  = mkHistory
      (training_loss_list (hist s) ++ [snd (training_averages c D e s)])
      (training_acc_list (hist s) ++ [fst (training_averages c D e s)])
      (testing_loss_list (hist s)
       ++ [s_div (s_div (batch_loss (vars s3)) (batch_idx (vars s3) + 1)) 2])
      (testing_acc_list (hist s) ++ [test_accuracy c D e s]).
Proof.
  intros s3.
  destruct (test_loop_frame c D e (before_test c D e s))
    as (_ & _ & _ & _ & Hh & _).
  fold s3 in Hh.
  assert (H : hist (epoch_end c path e s3 bv)
              = mkHistory (training_loss_list (hist s3))
                  (training_acc_list (hist s3))
                  (testing_loss_list (hist s3)
                   ++ [s_div (s_div (batch_loss (vars s3))
                                    (batch_idx (vars s3) + 1)) 2])
                  (testing_acc_list (hist s3) ++ [test_accuracy c D e s])).
  { unfold epoch_end. cbn zeta. destruct (s_lt _ _); reflexivity. }
  rewrite H, Hh, before_test_hist. reflexivity.
Qed.

Lemma epoch_end_model c path e s3 bv :
  deepcaps (epoch_end c path e s3 bv) = deepcaps s3
  /\ optimizer (epoch_end c path e s3 bv) = optimizer s3.
Proof.
  unfold epoch_end. cbn zeta. destruct (s_lt _ _); split; reflexivity.
Qed.

Lemma epoch_end_files c path e s3 bv :
  files (epoch_end c path e s3 bv)
  = if s_lt (best_accuracy (vars s3))
            (s_div (batch_accuracy (vars s3)) (batch_idx (vars s3) + 1))
    then write_file (files s3) path (state_dict (params (deepcaps s3)))
    else files s3.
Proof. unfold epoch_end. cbn zeta. destruct (s_lt _ _); reflexivity. Qed.

Lemma epoch_end_trace c path e s3 bv :
  let n := batch_idx (vars s3) + 1 in
  let acc := s_div (batch_accuracy (vars s3)) n in
  let avg := s_div (s_div (batch_loss (vars s3)) n) 2 in
  let h := mkHistory (training_loss_list (hist s3))
                     (training_acc_list (hist s3))
                     (testing_loss_list (hist s3) ++ [avg])
                     (testing_acc_list (hist s3) ++ [acc]) in
  trace (epoch_end c path e s3 bv)
  = trace s3
    ++ [EvPrintTest e acc avg; EvPrintF1 7 (ind bv) (labels_con bv)]
    ++ plot_events c e h bv
    ++ (if s_lt (best_accuracy (vars s3)) acc
        then [EvSave path e (state_dict (params (deepcaps s3)));
              EvPrintSaved e]
        else []).
Proof.
  intros n acc avg h. unfold epoch_end. cbn zeta. fold n. fold acc. fold avg.
  fold h. destruct (s_lt _ _).
  - cbn [emit_ev save_checkpoint trace deepcaps].
    rewrite <- !app_assoc. reflexivity.
  - cbn [trace]. now rewrite app_nil_r.
Qed.

Lemma write_file_same fs path blob :
  write_file fs path blob path = Some blob.
Proof. unfold write_file. now rewrite String.eqb_refl. Qed.

Lemma for_range_hist_lengths c D path idxs : forall s s',
  for_range (epoch c D path) idxs s = (Val tt, s') ->
  List.length (training_loss_list (hist s'))
  = (List.length (training_loss_list (hist s)) + List.length idxs)%nat
  /\ List.length (training_acc_list (hist s'))
     = (List.length (training_acc_list (hist s)) + List.length idxs)%nat
  /\ List.length (testing_loss_list (hist s'))
     = (List.length (testing_loss_list (hist s)) + List.length idxs)%nat
  /\ List.length (testing_acc_list (hist s'))
     = (List.length (testing_acc_list (hist s)) + List.length idxs)%nat.
Proof.
  induction idxs as [|i rest IH]; intros s s'; cbn [for_range].
  - intros H. injection H as <-. cbn [List.length]. lia.
  - unfold bind. destruct (epoch_cases c D path i s)
      as [(bv & _ & Hrun) | (_ & Hexc)].
    + rewrite Hrun. intros H. destruct (IH _ _ H) as (H1 & H2 & H3 & H4).
      rewrite epoch_end_hist in H1, H2, H3, H4.
      cbn [training_loss_list training_acc_list testing_loss_list
           testing_acc_list] in H1, H2, H3, H4.
      rewrite length_app in H1, H2, H3, H4.
      cbn [List.length] in *. lia.
    + destruct (epoch c D path i s) as [[[]|e'] s1]; cbn [fst] in *;
        discriminate.
Qed.

(** X8.  When [train] returns, each of the four history lists holds one
    entry per epoch. *)
Theorem history_one_entry_per_epoch c D fs :
  fst (train c D fs) = Val tt ->
  let h := hist (snd (train c D fs)) in
  let n := Z.to_nat (num_epochs c) in
  List.length (training_loss_list h) = n
  /\ List.length (training_acc_list h) = n
  /\ List.length (testing_loss_list h) = n
  /\ List.length (testing_acc_list h) = n.
Proof.
  destruct (checkpoint_folder c) as [folder|] eqn:Hf.
  2:{ unfold train, train_body, checkpoint_path_of, bind. rewrite Hf.
      discriminate. }
  destruct (checkpoint_name c) as [name|] eqn:Hn.
  2:{ unfold train, train_body, checkpoint_path_of, bind. rewrite Hf, Hn.
      discriminate. }
  rewrite (train_unfold c D fs folder name Hf Hn). unfold bind.
  destruct (restore_cases c fs (folder ++ name)%string)
    as [(-> & _) | [(blob & p & -> & _) | (blob & err & -> & _)]];
    [| |discriminate].
  - intros Hv.
    destruct (for_range _ _ _) as [r s'] eqn:Hrun. cbn [fst snd] in *.
    subst r. destruct (for_range_hist_lengths _ _ _ _ _ _ Hrun)
      as (H1 & H2 & H3 & H4).
    rewrite length_seq in H1, H2, H3, H4. cbn in H1, H2, H3, H4.
    repeat split; assumption.
  - intros Hv.
    destruct (for_range _ _ _) as [r s'] eqn:Hrun. cbn [fst snd] in *.
    subst r. destruct (for_range_hist_lengths _ _ _ _ _ _ Hrun)
      as (H1 & H2 & H3 & H4).
    rewrite length_seq in H1, H2, H3, H4. cbn in H1, H2, H3, H4.
    repeat split; assumption.
Qed.

(** ** What an epoch saves *)

Lemma epoch_start_frame c D e s :
  let s3 := after_test_loop c D e (before_test c D e s) in
  files s3 = files s
  /\ best_accuracy (vars s3) = best_accuracy (vars s)
  /\ trace s3
     = trace s ++ [EvPrintBegin e (get_learning_rate (optimizer s));
                   EvPrintTrain e (fst (training_averages c D e s))
                                  (snd (training_averages c D e s))]
  /\ mode (deepcaps s3) = EvalMode
  /\ params (deepcaps s3) = params (deepcaps (before_test c D e s)).
Proof.
  intros s3.
  destruct (test_loop_frame c D e (before_test c D e s))
    as (Tp & _ & Tm & _ & _ & Tf & Tt & Tb).
  destruct (before_test_frame c D e s) as (Bt & Bf & Bb & _).
  fold s3 in Tp, Tm, Tf, Tt, Tb.
  rewrite Tf, Tb, Tt, Bf, Bb, Bt. repeat split; assumption.
Qed.

Lemma epoch_checkpoint_file c D path e s s' :
  epoch c D path e s = (Val tt, s') ->
  exists evs,
    trace s' = trace s ++ evs
    /\ (s_lt (best_accuracy (vars s)) (test_accuracy c D e s) = true ->
        files s' path = Some (state_dict (params (deepcaps s')))
        /\ params (deepcaps s') = params (deepcaps (before_test c D e s))
        /\ filter is_save evs
           = [EvSave path e (state_dict (params (deepcaps s')))])
    /\ (s_lt (best_accuracy (vars s)) (test_accuracy c D e s) = false ->
        filter is_save evs = []).
Proof.
  intros Hrun.
  destruct (epoch_start_frame c D e s) as (_ & Hb & Ht & _ & Hp).
  destruct (epoch_cases c D path e s) as [(bv & _ & Heq) | (_ & Hexc)].
  2:{ rewrite Hrun in Hexc. discriminate. }
  rewrite Hrun in Heq. injection Heq as ->.
  eexists. split.
  { rewrite epoch_end_trace, Ht, <- app_assoc. reflexivity. }
  rewrite epoch_end_files, Hb.
  destruct (epoch_end_model c path e
              (after_test_loop c D e (before_test c D e s)) bv) as (-> & _).
  rewrite !filter_app.
  rewrite filter_plot_events by (intros [] H; try discriminate H; reflexivity).
  unfold test_accuracy. split; intros ->.
  - rewrite write_file_same.
    split; [reflexivity|]. split; [exact Hp | reflexivity].
  - reflexivity.
Qed.

(** X10.  An epoch that ends normally and passes the comparison of line
    141 makes exactly one save, of the serialised parameters the model
    has at the end of that epoch (those its training pass produced), and
    these are what the checkpoint path then holds; an epoch that ends
    normally and does not pass the comparison makes no save. *)
Theorem saved_checkpoint_holds_current_parameters c D path e s s' :
  epoch c D path e s = (Val tt, s') ->
  exists evs,
    trace s' = trace s ++ evs
    /\ (s_lt (best_accuracy (vars s)) (test_accuracy c D e s) = true ->
        files s' path = Some (state_dict (params (deepcaps s')))
        /\ params (deepcaps s') = params (deepcaps (before_test c D e s))
        /\ filter is_save evs
           = [EvSave path e (state_dict (params (deepcaps s')))])
    /\ (s_lt (best_accuracy (vars s)) (test_accuracy c D e s) = false ->
        filter is_save evs = []).
Proof. apply epoch_checkpoint_file. Qed.

(** X11.  Save and restore round trip: when an epoch saved, and the
    checkpoint it wrote loads into the model a later run constructs,
    giving back the saved parameters, that later run with
    [load_checkpoint=True] on the same path, over the files the epoch
    left, runs its epochs from exactly the parameters the model had at
    the end of that epoch. *)
Theorem resume_from_saved_epoch c D e s s' c2 D2 folder name :
  epoch c D (folder ++ name)%string e s = (Val tt, s') ->
  s_lt (best_accuracy (vars s)) (test_accuracy c D e s) = true ->
  load_state_dict (state_dict (params (deepcaps s')))
                  (init_model (num_classes c2) (img_size c2))
  = inr (params (deepcaps s')) ->
  load_checkpoint c2 = true ->
  checkpoint_folder c2 = Some folder ->
  checkpoint_name c2 = Some name ->
  train c2 D2 (files s')
  = for_range (epoch c2 D2 (folder ++ name)%string)
              (seq 0 (Z.to_nat (num_epochs c2)))
              (loaded_state c2 (files s') (params (deepcaps s'))).
Proof.
  intros Hrun Hsave Hround Hl Hf Hn.
  destruct (epoch_checkpoint_file c D _ e s s' Hrun) as (evs & _ & Hfile & _).
  destruct (Hfile Hsave) as (Hblob & _).
  rewrite (train_unfold c2 D2 (files s') folder name Hf Hn). unfold bind.
  rewrite (restore_loaded c2 _ (fresh_state c2 (files s')) name
             (state_dict (params (deepcaps s'))) (params (deepcaps s'))
             Hl Hn Hblob Hround).
  reflexivity.
Qed.

Lemma for_range_eval_mode c D path idxs : forall s s',
  idxs <> [] ->
  for_range (epoch c D path) idxs s = (Val tt, s') ->
  mode (deepcaps s') = EvalMode.
Proof.
  induction idxs as [|i rest IH]; intros s s' Hne; [contradiction|].
  cbn [for_range]. unfold bind.
  destruct (epoch_cases c D path i s) as [(bv & _ & ->) | (_ & Hexc)].
  - destruct rest as [|j rest'].
    + cbn [for_range]. intros H. injection H as <-.
      destruct (epoch_end_model c path i
                  (after_test_loop c D i (before_test c D i s)) bv)
        as (-> & _).
      now destruct (epoch_start_frame c D i s) as (_ & _ & _ & Hm & _).
    + apply IH. discriminate.
  - destruct (epoch c D path i s) as [[[]|e'] s1]; cbn [fst] in *;
      discriminate.
Qed.

(** X12.  When [train] returns after at least one epoch, the model is in
    evaluation mode. *)
Theorem train_leaves_eval_mode c D fs :
  fst (train c D fs) = Val tt ->
  0 < num_epochs c ->
  mode (deepcaps (snd (train c D fs))) = EvalMode.
Proof.
  destruct (checkpoint_folder c) as [folder|] eqn:Hf.
  2:{ unfold train, train_body, checkpoint_path_of, bind. rewrite Hf.
      discriminate. }
  destruct (checkpoint_name c) as [name|] eqn:Hn.
  2:{ unfold train, train_body, checkpoint_path_of, bind. rewrite Hf, Hn.
      discriminate. }
  rewrite (train_unfold c D fs folder name Hf Hn). unfold bind.
  intros Hv Hpos.
  assert (Hne : seq 0 (Z.to_nat (num_epochs c)) <> []).
  { destruct (Z.to_nat (num_epochs c)) eqn:Hk; [lia | discriminate]. }
  destruct (restore_cases c fs (folder ++ name)%string)
    as [(Hr & _) | [(blob & p & Hr & _) | (blob & err & Hr & _)]];
    rewrite Hr in *; [| |discriminate].
  - destruct (for_range _ _ _) as [r s'] eqn:Hrun. cbn [fst snd] in *.
    subst r. exact (for_range_eval_mode _ _ _ _ _ _ Hne Hrun).
  - destruct (for_range _ _ _) as [r s'] eqn:Hrun. cbn [fst snd] in *.
    subst r. exact (for_range_eval_mode _ _ _ _ _ _ Hne Hrun).
Qed.

(** ** An epoch without testing batches *)

Lemma train_batch_last_vars c b s :
  last_vars (vars (train_batch c b s))
  = Some (snd (forward_batch c (deepcaps s) b)).
Proof. rewrite train_batch_vars. reflexivity. Qed.

Lemma train_loop_mode c l : forall i s,
  mode (deepcaps (for_enumerate (train_batch c) i l s)) = mode (deepcaps s).
Proof.
  induction l as [|a l IH]; intros i s; [reflexivity|].
  cbn [for_enumerate]. rewrite IH.
  now destruct (train_batch_frame c a (bind_batch_idx i s)) as (_ & _ & _ & ->).
Qed.

(** X13.  When the testing loader of an epoch yields no batch and its
    training loader ends with batch [b], the epoch still ends normally:
    the testing accuracy it records is the zero sum divided by 1, and the
    F1 score it prints is computed over the predictions made for [b] in
    training mode, before the optimiser step on [b], against the merged
    labels of [b]. *)
Theorem f1_falls_back_to_last_training_batch c D path e s l b :
  test_loader D e = [] ->
  train_loader D e = l ++ [b] ->
  let s_pre := for_enumerate (train_batch c) 0 l
                 (set_mode TrainMode
                    (reset_counters
                       (emit_ev (EvPrintBegin e
                                   (get_learning_rate (optimizer s))) s))) in
  let o := forward TrainMode (params (deepcaps s_pre))
                   (b_data b) (b_optic b)
                   (onehot_encode (b_labels b) (num_classes c)) in
  exists s' evs,
    epoch c D path e s = (Val tt, s')
    /\ trace s' = trace s ++ evs
    /\ filter is_f1 evs
       = [EvPrintF1 7 (indices o ++ indices1 o) (b_labels b ++ b_labels b)]
    /\ testing_acc_list (hist s')
       = testing_acc_list (hist s) ++ [s_div s_zero 1].
Proof.
  intros Hte Htr s_pre o.
  assert (Hmode : mode (deepcaps s_pre) = TrainMode).
  { unfold s_pre. now rewrite train_loop_mode. }
  set (bv := snd (forward_batch c
                    (deepcaps (bind_batch_idx (0 + Z.of_nat (List.length l))
                                              s_pre)) b)).
  assert (Hbv : last_vars (vars (after_test_loop c D e (before_test c D e s)))
                = Some bv).
  { unfold after_test_loop. rewrite Hte.
    cbn [for_enumerate set_mode set_deepcaps reset_counters set_vars vars
         last_vars].
    rewrite before_test_last_vars. unfold after_train_loop.
    rewrite Htr, for_enumerate_snoc, train_batch_last_vars. reflexivity. }
  exists (epoch_end c path e (after_test_loop c D e (before_test c D e s)) bv).
  eexists. split; [now apply epoch_unfold|].
  destruct (epoch_start_frame c D e s) as (_ & _ & Ht & _).
  split; [rewrite epoch_end_trace, Ht, <- app_assoc; reflexivity|].
  split.
  - rewrite !filter_app.
    rewrite filter_plot_events by (intros [] H; try discriminate H; reflexivity).
    destruct (s_lt _ _); cbn [filter is_f1 app];
      unfold bv, forward_batch; cbn [snd ind labels_con bind_batch_idx
        set_vars deepcaps]; rewrite Hmode; reflexivity.
  - rewrite epoch_end_hist. cbn [testing_acc_list]. do 2 f_equal.
    unfold test_accuracy, after_test_loop. rewrite Hte. reflexivity.
Qed.

(** ** The events of a run *)

Lemma plot_events_ok c e h bv :
  Z.of_nat e < num_epochs c ->
  Forall (run_event c) (plot_events c e h bv).
Proof.
  intros He. unfold plot_events.
  destruct (graphs_folder c) as [folder|] eqn:Hg; [|constructor].
  destruct (Z.of_nat e mod 5 =? 0)%Z eqn:Hm; [|constructor].
  rewrite fifth_epoch_test in Hm. apply Nat.eqb_eq in Hm.
  repeat constructor; assumption.
Qed.

Lemma epoch_run_events c D folder name e :
  checkpoint_folder c = Some folder ->
  checkpoint_name c = Some name ->
  Z.of_nat e < num_epochs c ->
  preserves (fun s => Forall (run_event c) (trace s))
            (epoch c D (folder ++ name)%string e).
Proof.
  intros Hf Hn He s Hs.
  destruct (epoch_start_frame c D e s) as (_ & _ & Ht & _).
  destruct (last_vars (vars (after_test_loop c D e (before_test c D e s))))
    as [bv|] eqn:Hbv.
  - rewrite (epoch_unfold c D _ e s bv Hbv). cbn [snd].
    rewrite epoch_end_trace, Ht. repeat (apply Forall_app; split).
    + exact Hs.
    + repeat constructor; exact He.
    + repeat constructor; exact He.
    + now apply plot_events_ok.
    + destruct (s_lt _ _); repeat constructor; try exact He.
      exists folder, name. repeat split; assumption.
  - rewrite epoch_unbound by exact Hbv. cbn [snd emit_ev trace].
    rewrite Ht. repeat (apply Forall_app; split).
    + exact Hs.
    + repeat constructor; exact He.
    + repeat constructor; exact He.
Qed.

Lemma for_range_preserves_in I (body : nat -> M unit) idxs :
  (forall i, In i idxs -> preserves I (body i)) ->
  preserves I (for_range body idxs).
Proof.
  induction idxs as [|i rest IH]; intros Hb; cbn [for_range].
  - apply preserves_ret.
  - apply preserves_bind; [apply Hb; now left|].
    intros _. apply IH. intros j Hj. apply Hb. now right.
Qed.

(** Every event of a run is one the arguments of [train] allow. *)
Lemma run_events c D fs :
  Forall (run_event c) (trace (snd (train c D fs))).
Proof.
  destruct (checkpoint_folder c) as [folder|] eqn:Hf.
  2:{ unfold train, train_body, checkpoint_path_of, bind. rewrite Hf.
      constructor. }
  destruct (checkpoint_name c) as [name|] eqn:Hn.
  2:{ unfold train, train_body, checkpoint_path_of, bind. rewrite Hf, Hn.
      constructor. }
  rewrite (train_unfold c D fs folder name Hf Hn). unfold bind.
  assert (Hlater : forall s, Forall (run_event c) (trace s) ->
            Forall (run_event c)
              (trace (snd (for_range (epoch c D (folder ++ name)%string)
                             (seq 0 (Z.to_nat (num_epochs c))) s)))).
  { apply (for_range_preserves_in
             (fun s => Forall (run_event c) (trace s))
             (epoch c D (folder ++ name)%string)).
    intros e He. apply in_seq in He.
    apply epoch_run_events; try assumption. lia. }
  destruct (restore_cases c fs (folder ++ name)%string)
    as [(-> & _) | [(blob & p & -> & Hl & _) | (blob & err & -> & Hl & _)]].
  - apply Hlater. repeat constructor.
  - apply Hlater. repeat constructor. exact Hl.
  - repeat constructor. exact Hl.
Qed.

Lemma filter_none {A} (f : A -> bool) l :
  Forall (fun x => f x = false) l -> filter f l = [].
Proof.
  induction 1 as [|x l Hx _ IH]; [reflexivity|].
  cbn [filter]. now rewrite Hx.
Qed.

(** X14.  In a run, every plot goes to the configured graphs folder and
    belongs to an epoch of the run whose index is a multiple of 5; without
    a graphs folder the run plots nothing. *)
Theorem plots_of_a_run c D fs :
  Forall (plot_ok c) (trace (snd (train c D fs)))
  /\ (graphs_folder c = None ->
      filter is_plot (trace (snd (train c D fs))) = []).
Proof.
  pose proof (run_events c D fs) as H. split.
  - eapply Forall_impl; [|exact H]. intros []; cbn; auto.
  - intros Hg. apply filter_none. eapply Forall_impl; [|exact H].
    intros []; cbn; try reflexivity; rewrite Hg; intros (Habs & _);
      discriminate.
Qed.

(** X15.  In a run, every save goes to
    [checkpoint_folder + checkpoint_name] and belongs to an epoch of the
    run. *)
Theorem saves_of_a_run c D fs :
  Forall (save_ok c) (trace (snd (train c D fs))).
Proof.
  eapply Forall_impl; [|apply run_events]. intros []; cbn; auto.
Qed.

(** X16.  The script calls [train] with [load_checkpoint=False]: it
    never reads a checkpoint, never reports a load or a load error, and
    never ends through [sys.exit]. *)
Theorem script_never_restores cfg ds fs :
  filter is_restore_event (trace (snd (main cfg ds fs))) = []
  /\ (forall code, fst (main cfg ds fs) <> Exc (SystemExit code)).
Proof.
  unfold main. split.
  - apply filter_none. eapply Forall_impl; [|apply run_events].
    intros []; cbn; try reflexivity; discriminate.
  - intros code H.
    destruct (train_exceptions _ _ _ _ H) as [Ht | [(_ & Hl) | Hu]];
      discriminate.
Qed.

End RunFacts.

(** * Concrete runs of whole epochs and runs *)

Lemma train_needs_checkpoint_path_witness :
  checkpoint_folder Scenarios.cfg_defaults = None
  /\ fst (train Scenarios.cfg_defaults Toy.loaders Toy.no_files)
     = Exc TypeError.
Proof.
  split; [reflexivity|].
  exact (proj1 (train_needs_checkpoint_path Scenarios.cfg_defaults
                  Toy.loaders Toy.no_files (or_introl eq_refl))).
Defined.


Lemma batch_variables_stay_bound_witness :
  train_loader Toy.loaders 0 <> []
  /\ fst (train Toy.cfg Toy.loaders Toy.no_files)
     <> Exc (UnboundLocalError "ind").
Proof.
  assert (H : train_loader Toy.loaders 0 <> []) by discriminate.
  split; [exact H|].
  exact (batch_variables_stay_bound Toy.cfg Toy.loaders Toy.no_files "ind"
           (or_intror (or_introl H))).
Defined.

Lemma empty_loaders_raise_unbound_local_witness :
  train_loader Scenarios.loaders_empty 0 = []
  /\ test_loader Scenarios.loaders_empty 0 = []
  /\ fst (train Toy.cfg Scenarios.loaders_empty Toy.no_files)
     = Exc (UnboundLocalError "ind").
Proof.
  split; [reflexivity|]. split; [reflexivity|].
  apply (empty_loaders_raise_unbound_local Toy.cfg Scenarios.loaders_empty
           Toy.no_files "ckpt/" "best.pt");
    [reflexivity | reflexivity | discriminate | reflexivity
     | reflexivity | reflexivity].
Defined.

Lemma no_epoch_run_witness :
  num_epochs Scenarios.cfg_no_epoch <= 0
  /\ train Scenarios.cfg_no_epoch Toy.loaders Toy.no_files
     = (Val tt, fresh_state Scenarios.cfg_no_epoch Toy.no_files).
Proof.
  assert (H : num_epochs Scenarios.cfg_no_epoch <= 0) by discriminate.
  split; [exact H|].
  exact (no_epoch_run Scenarios.cfg_no_epoch Toy.loaders Toy.no_files
           "ckpt/" "best.pt" eq_refl eq_refl eq_refl H).
Defined.

Lemma restored_run_starts_from_checkpoint_witness :
  Scenarios.saved_files "ckpt/best.pt" = Some (Some 5)
  /\ params (deepcaps (loaded_state Toy.cfg_restore Scenarios.saved_files 5))
     = 5
  /\ train Toy.cfg_restore Toy.loaders Scenarios.saved_files
     = for_range (epoch Toy.cfg_restore Toy.loaders "ckpt/best.pt")
                 (seq 0 2)
                 (loaded_state Toy.cfg_restore Scenarios.saved_files 5).
Proof.
  split; [reflexivity|].
  destruct (restored_run_starts_from_checkpoint Toy.cfg_restore Toy.loaders
              Scenarios.saved_files "ckpt/" "best.pt" (Some 5) 5
              eq_refl eq_refl eq_refl eq_refl eq_refl) as (H1 & H2 & _).
  split; [exact H2 | exact H1].
Defined.

Lemma missing_checkpoint_is_ignored_witness :
  load_checkpoint Toy.cfg_restore = true
  /\ Toy.no_files "ckpt/best.pt" = None
  /\ train Toy.cfg_restore Toy.loaders Toy.no_files
     = train (without_restore Toy.cfg_restore) Toy.loaders Toy.no_files.
Proof.
  split; [reflexivity|]. split; [reflexivity|].
  exact (missing_checkpoint_is_ignored Toy.cfg_restore Toy.loaders
           Toy.no_files "ckpt/" "best.pt" eq_refl eq_refl eq_refl).
Defined.

Lemma history_one_entry_per_epoch_witness :
  fst (train Toy.cfg Toy.loaders Toy.no_files) = Val tt
  /\ List.length (testing_acc_list
                    (hist (snd (train Toy.cfg Toy.loaders Toy.no_files))))
     = 2%nat.
Proof.
  assert (H : fst (train Toy.cfg Toy.loaders Toy.no_files) = Val tt)
    by reflexivity.
  split; [exact H|].
  destruct (history_one_entry_per_epoch Toy.cfg Toy.loaders Toy.no_files H)
    as (_ & _ & _ & H4).
  exact H4.
Defined.

Lemma saved_checkpoint_holds_current_parameters_witness :
  let s := start Toy.cfg Toy.no_files in
  let s' := snd (epoch Toy.cfg Toy.loaders "ckpt/best.pt" 0 s) in
  epoch Toy.cfg Toy.loaders "ckpt/best.pt" 0 s = (Val tt, s')
  /\ s_lt (best_accuracy (vars s))
          (test_accuracy Toy.cfg Toy.loaders 0 s) = true
  /\ files s' "ckpt/best.pt" = Some (state_dict (params (deepcaps s'))).
Proof.
  intros s s'.
  assert (H1 : epoch Toy.cfg Toy.loaders "ckpt/best.pt" 0 s = (Val tt, s'))
    by (vm_compute; reflexivity).
  assert (H2 : s_lt (best_accuracy (vars s))
                    (test_accuracy Toy.cfg Toy.loaders 0 s) = true)
    by (vm_compute; reflexivity).
  split; [exact H1|]. split; [exact H2|].
  destruct (saved_checkpoint_holds_current_parameters
              Toy.cfg Toy.loaders "ckpt/best.pt" 0 s s' H1)
    as (evs & _ & Hsave & _).
  exact (proj1 (Hsave H2)).
Defined.

Lemma resume_from_saved_epoch_witness :
  let s := start Toy.cfg Toy.no_files in
  let s' := snd (epoch Toy.cfg Toy.loaders ("ckpt/" ++ "best.pt")%string 0 s) in
  epoch Toy.cfg Toy.loaders ("ckpt/" ++ "best.pt")%string 0 s = (Val tt, s')
  /\ s_lt (best_accuracy (vars s))
          (test_accuracy Toy.cfg Toy.loaders 0 s) = true
  /\ load_state_dict (state_dict (params (deepcaps s')))
                     (init_model (num_classes Toy.cfg_restore)
                                 (img_size Toy.cfg_restore))
     = inr (params (deepcaps s'))
  /\ params (deepcaps s') = 1
  /\ train Toy.cfg_restore Toy.loaders (files s')
     = for_range (epoch Toy.cfg_restore Toy.loaders
                        ("ckpt/" ++ "best.pt")%string)
                 (seq 0 (Z.to_nat (num_epochs Toy.cfg_restore)))
                 (loaded_state Toy.cfg_restore (files s')
                               (params (deepcaps s'))).
Proof.
  intros s s'.
  assert (H1 : epoch Toy.cfg Toy.loaders ("ckpt/" ++ "best.pt")%string 0 s
               = (Val tt, s')) by (vm_compute; reflexivity).
  assert (H2 : s_lt (best_accuracy (vars s))
                    (test_accuracy Toy.cfg Toy.loaders 0 s) = true)
    by (vm_compute; reflexivity).
  assert (H3 : load_state_dict (state_dict (params (deepcaps s')))
                 (init_model (num_classes Toy.cfg_restore)
                             (img_size Toy.cfg_restore))
               = inr (params (deepcaps s'))) by reflexivity.
  split; [exact H1|]. split; [exact H2|]. split; [exact H3|].
  split; [vm_compute; reflexivity|].
  exact (resume_from_saved_epoch Toy.cfg Toy.loaders 0 s s'
           Toy.cfg_restore Toy.loaders "ckpt/" "best.pt"
           H1 H2 H3 eq_refl eq_refl eq_refl).
Defined.

Lemma train_leaves_eval_mode_witness :
  fst (train Toy.cfg Toy.loaders Toy.no_files) = Val tt
  /\ 0 < num_epochs Toy.cfg
  /\ mode (deepcaps (snd (train Toy.cfg Toy.loaders Toy.no_files)))
     = EvalMode.
Proof.
  assert (H1 : fst (train Toy.cfg Toy.loaders Toy.no_files) = Val tt)
    by reflexivity.
  assert (H2 : 0 < num_epochs Toy.cfg) by reflexivity.
  split; [exact H1|]. split; [exact H2|].
  exact (train_leaves_eval_mode Toy.cfg Toy.loaders Toy.no_files H1 H2).
Defined.

Lemma f1_falls_back_to_last_training_batch_witness :
  test_loader Toy.loaders_no_test 0 = []
  /\ train_loader Toy.loaders_no_test 0 = [] ++ [Toy.batch01]
  /\ exists s' evs,
       epoch Toy.cfg Toy.loaders_no_test "ckpt/best.pt" 0
             (start Toy.cfg Toy.no_files) = (Val tt, s')
       /\ trace s' = trace (start Toy.cfg Toy.no_files) ++ evs
       /\ filter is_f1 evs
          = [@EvPrintF1 Toy.toy 7 [0; 0; 0; 0] [0; 1; 0; 1]]
       /\ testing_acc_list (hist s') = [0%Q].
Proof.
  split; [reflexivity|]. split; [reflexivity|].
  exact (f1_falls_back_to_last_training_batch Toy.cfg Toy.loaders_no_test
           "ckpt/best.pt" 0 (start Toy.cfg Toy.no_files) [] Toy.batch01
           eq_refl eq_refl).
Defined.
